(** * An I2P transport for libp2p: the session and connection adapter

    A shallow embedding of [transport.go] (package [i2p]): the transport
    builder, [CanDial], [Dial], [Listen], [Close] and [Protocols], together
    with the collaborators they talk to (the SAM session provider, the
    connection upgrader, the resource manager and the caller's context).

    Collaborators are records of result functions (what a call answers);
    every call a transport function makes on one of them is logged, in
    order, in a trace of events.  Go's [(value, error)] results are kept as
    pairs of options wherever the code itself tests the value for nil. *)

From Stdlib Require Import String Ascii List ZArith Bool Lia DecimalString
  DecimalPos DecimalZ.
Import ListNotations.
Local Open Scope string_scope.
Local Open Scope Z_scope.

(** ** Multiaddresses (go-multiaddr) *)

(** One layer of a multiaddress: a protocol code and its textual value. *)
Record Component := { code : Z; value : string }.

(** [ma.Multiaddr]: the layers, outermost first. *)
Definition Multiaddr := list Component.

(** Protocol codes of go-multiaddr's [protocols.go]. *)
Definition P_IP4 : Z := 4.
Definition P_TCP : Z := 6.
Definition P_GARLIC64 : Z := 446. (* 0x01BE *)
Definition P_GARLIC32 : Z := 447. (* 0x01BF *)

(** [a.Protocols()], as the codes of the layers. *)
Definition ProtocolCodes (a : Multiaddr) : list Z := map code a.

(** ** Address patterns (go-multiaddr-fmt)

    [mafmt.Base] matches one layer by its code and hands back the rest;
    [mafmt.Or] tries its alternatives in order on a non-empty address;
    [Matches] asks for a match that leaves nothing over. *)
#[warnings="-register-all"]
Inductive Pattern :=
| Base (c : Z)
| Or (ps : list Pattern).

Fixpoint partialMatch (p : Pattern) (pcs : list Z) : bool * list Z :=
  match p with
  | Base c =>
      match pcs with
      | [] => (false, [])
      | pc :: rest => if pc =? c then (true, rest) else (false, [])
      end
  | Or ps =>
      match pcs with
      | [] => (false, [])
      | _ :: _ =>
          (fix try (qs : list Pattern) : bool * list Z :=
             match qs with
             | [] => (false, [])
             | q :: qs' =>
                 let '(ok, rem) := partialMatch q pcs in
                 if ok then (true, rem) else try qs'
             end) ps
      end
  end.

Definition Matches (p : Pattern) (a : Multiaddr) : bool :=
  let '(ok, rem) := partialMatch p (ProtocolCodes a) in
  ok && (length rem =? 0)%nat.

(** ** Errors *)

(** [ctx.Err()] when it is not nil. *)
Inductive CtxErr := Canceled | DeadlineExceeded.

(** An argument of a format string. *)
Inductive FmtArg :=
| ArgAddr (a : Multiaddr)
| ArgStr (s : string).

(** Go [error] values as the transport builds them: the context's error,
    an error handed over by a collaborator, [fmt.Errorf], and
    [errorx.Decorate] around a cause. *)
Inductive error :=
| CtxError (e : CtxErr)
| External (msg : string)
| Errorf (format : string) (args : list FmtArg)
| Decorate (cause : error) (format : string) (args : list FmtArg).

(** The innermost cause under the decorations. *)
Fixpoint Cause (e : error) : error :=
  match e with
  | Decorate c _ _ => Cause c
  | _ => e
  end.

(** A cancellation error ([DialCancelled]): its cause is the context's error. *)
Definition IsCancellation (e : error) : bool :=
  match Cause e with
  | CtxError _ => true
  | _ => false
  end.

(** ** The caller's context

    [Dial] reads [ctx.Err()] at five places; the context answers each of
    them on its own, since time passes between them. *)
Inductive Checkpoint :=
| BeforeDial         (* line 112 *)
| AfterDialError     (* line 120 *)
| AfterDial          (* line 127 *)
| BeforeUpgrade      (* line 158 *)
| AfterUpgradeError. (* line 183 *)

Record GoContext := { Err : Checkpoint -> option CtxErr }.

(** ** Collaborators *)

Definition PeerID := string.

Inductive Direction := DirInbound | DirOutbound.

Record I2PKeys := { keys_Addr : string; keys_Both : string }.

(** [*sam3.SAMConn]: a raw overlay stream. *)
Record SAMConn := {
  samconn_id : nat;
  samconn_LocalAddr : string;
  samconn_RemoteAddr : string
}.

(** [*sam3.StreamListener]: a raw overlay listener. *)
Record StreamListener := {
  streamlistener_id : nat;
  streamlistener_Addr : string
}.

(** [*sam3.StreamSession]: its identifier, its own destination, and what
    its blocking primitives answer. *)
Record StreamSession := {
  session_id : string;
  session_LocalAddr : string;
  DialI2P_result : string -> option SAMConn * option error;
  Listen_result : StreamListener + error
}.

(** [*sam3.PrimarySession]. *)
Record PrimarySession := {
  primary_id : string;
  primary_Addr : string;
  NewStreamSubSession_result : string -> StreamSession + error;
  NewStreamSubSessionWithPorts_result :
    string -> string -> string -> StreamSession + error
}.

(** [*sam3.SAM]: the connection to the router's control port. *)
Record SAM := {
  sam_address : string;
  NewPrimarySession_result :
    string -> I2PKeys -> list string -> PrimarySession + error
}.

(** [network.ConnManagementScope]. *)
Record ConnManagementScope := { scope_id : nat }.

(** [network.ResourceManager]. *)
Record network_ResourceManager := {
  OpenConnection_result :
    Direction -> bool -> Multiaddr ->
    option ConnManagementScope * option error
}.

(** Modelled from the spec: connection.go is not among the sources.
    The wrapped connection presents a raw stream with a local and a remote
    generic address, and can be closed. *)
Record Connection := {
  connection_raw : SAMConn;
  connection_local : Multiaddr;
  connection_remote : Multiaddr
}.

(** Modelled from the spec: listener.go is not among the sources.
    The wrapped listener presents a raw listener with its generic address. *)
Record TransportListener := {
  transportlistener_raw : StreamListener;
  transportlistener_addr : Multiaddr
}.

(** [transport.CapableConn]: what the upgrade pipeline hands back. *)
Record CapableConn := {
  capable_conn : Connection;
  capable_peer : PeerID;
  capable_scope : option ConnManagementScope
}.

(** [transport.Listener]: the upgraded listener. *)
Record Listener := { listener_inner : TransportListener }.

(** [transport.Upgrader].  [Upgrade] also receives the transport itself
    as the transport identity; the record is a field of that transport. *)
Record transport_Upgrader := {
  Upgrade_result :
    GoContext -> Connection -> Direction -> PeerID ->
    option ConnManagementScope -> option CapableConn * option error;
  UpgradeListener_result : TransportListener -> Listener
}.

(** ** Events: the calls made on collaborators *)
Inductive Event :=
| EvNewPrimarySession (id : string) (keys : I2PKeys) (opts : list string)
| EvNewStreamSubSession (primary id : string)
| EvNewStreamSubSessionWithPorts (primary id from to : string)
| EvDialI2P (session dest : string)
| EvListen (session : string)
| EvStreamListenerClose (l : StreamListener)
| EvSAMConnClose (c : SAMConn)
| EvConnectionClose (c : Connection)
| EvOpenConnection (dir : Direction) (usefd : bool) (addr : Multiaddr)
| EvScopeDone (s : ConnManagementScope)
| EvUpgrade (c : Connection) (dir : Direction) (p : PeerID)
            (scope : option ConnManagementScope)
| EvUpgradeListener (l : TransportListener)
| EvPrimaryClose (primary : string).

(** ** The monad of transport code: a result or a panic, and the trace *)
Inductive Outcome (A : Type) :=
| Returned (a : A)
| Panicked (msg : string).
Arguments Returned {A} a.
Arguments Panicked {A} msg.

Definition M (A : Type) : Type := Outcome A * list Event.

Definition ret {A} (a : A) : M A := (Returned a, []).

Definition bind {A B} (m : M A) (k : A -> M B) : M B :=
  match m with
  | (Returned a, t1) => let '(o, t2) := k a in (o, (t1 ++ t2)%list)
  | (Panicked msg, t1) => (Panicked msg, t1)
  end.

Definition emit (e : Event) : M unit := (Returned tt, [e]).

Definition panic {A} (msg : string) : M A := (Panicked msg, []).

Declare Scope go_scope.
Delimit Scope go_scope with go.
Notation "x <- c1 ;; c2" := (bind c1 (fun x => c2))
  (at level 61, c1 at next level, right associativity) : go_scope.
Notation "' pat <- c1 ;; c2" :=
  (bind c1 (fun x => match x with pat => c2 end))
  (at level 61, pat pattern, c1 at next level, right associativity) : go_scope.
Notation "c1 ;; c2" := (bind c1 (fun _ => c2))
  (at level 61, right associativity) : go_scope.
Local Open Scope go_scope.

(** The result of a run and its trace. *)
Definition outcome {A} (m : M A) : Outcome A := fst m.
Definition trace {A} (m : M A) : list Event := snd m.

(** *** Collaborator calls: log the call, answer with the collaborator's result *)

Definition NewPrimarySession (sam : SAM) (id : string) (keys : I2PKeys)
    (opts : list string) : M (PrimarySession + error) :=
  emit (EvNewPrimarySession id keys opts) ;;
  ret (NewPrimarySession_result sam id keys opts).

Definition NewStreamSubSession (p : PrimarySession) (id : string)
    : M (StreamSession + error) :=
  emit (EvNewStreamSubSession (primary_id p) id) ;;
  ret (NewStreamSubSession_result p id).

Definition NewStreamSubSessionWithPorts (p : PrimarySession)
    (id from to : string) : M (StreamSession + error) :=
  emit (EvNewStreamSubSessionWithPorts (primary_id p) id from to) ;;
  ret (NewStreamSubSessionWithPorts_result p id from to).

Definition PrimarySession_Close (p : PrimarySession) : M unit :=
  emit (EvPrimaryClose (primary_id p)).

Definition DialI2P (s : StreamSession) (dest : string)
    : M (option SAMConn * option error) :=
  emit (EvDialI2P (session_id s) dest) ;;
  ret (DialI2P_result s dest).

Definition StreamSession_Listen (s : StreamSession)
    : M (StreamListener + error) :=
  emit (EvListen (session_id s)) ;;
  ret (Listen_result s).

Definition SAMConn_Close (c : SAMConn) : M unit := emit (EvSAMConnClose c).

Definition Connection_Close (c : Connection) : M unit :=
  emit (EvConnectionClose c).

Definition OpenConnection (rm : network_ResourceManager) (dir : Direction)
    (usefd : bool) (addr : Multiaddr)
    : M (option ConnManagementScope * option error) :=
  emit (EvOpenConnection dir usefd addr) ;;
  ret (OpenConnection_result rm dir usefd addr).

Definition Done (s : ConnManagementScope) : M unit := emit (EvScopeDone s).

Definition Upgrade (u : transport_Upgrader) (ctx : GoContext)
    (c : Connection) (dir : Direction) (p : PeerID)
    (scope : option ConnManagementScope)
    : M (option CapableConn * option error) :=
  emit (EvUpgrade c dir p scope) ;;
  ret (Upgrade_result u ctx c dir p scope).

Definition UpgradeListener (u : transport_Upgrader) (l : TransportListener)
    : M Listener :=
  emit (EvUpgradeListener l) ;;
  ret (UpgradeListener_result u l).

(** [defer]: run the body, which also reports the final value of the
    function's [err] variable, then the deferred function on it. *)
Definition defer {A} (deferred : option error -> M unit)
    (body : M (A * option error)) : M A :=
  '(r, err) <- body ;;
  deferred err ;;
  ret r.

(** ** The transport *)

Record I2PTransport := {
  Upgrader : option transport_Upgrader;
  ResourceManager : option network_ResourceManager;
  sam : SAM;
  i2PKeys : I2PKeys;
  primarySession : PrimarySession;
  outboundSession : StreamSession;
  inboundSession : StreamSession
}.

Definition TransportBuilderFunc : Type :=
  option transport_Upgrader -> option network_ResourceManager ->
  option I2PTransport * option error.

(** [strconv.Itoa]. *)
Definition Itoa (n : Z) : string := NilZero.string_of_int (Z.to_int n).

Definition dialMatcher : Pattern := Or [Base P_GARLIC64; Base P_GARLIC32].

(** [CanDial]: whether [dialMatcher] matches the address. *)
Definition CanDial (i2p : I2PTransport) (addr : Multiaddr) : bool :=
  Matches dialMatcher addr.

(** [Protocols]. *)
Definition Protocols (i2p : I2PTransport) : list Z :=
  [P_GARLIC64; P_GARLIC32; P_TCP].

Definition Proxy (i2p : I2PTransport) : bool := false.

(** The transport's [String()]. *)
Definition I2PTransport_String (i2p : I2PTransport) : string := "I2P".

(** [Close]: closes the primary session. *)
Definition Close (i2p : I2PTransport) : M unit :=
  PrimarySession_Close (primarySession i2p).

(** ** The address translator *)

Definition MalformedAddress : error := External "MalformedAddress".
Definition UnsupportedAddressFamily : error :=
  External "UnsupportedAddressFamily".

Module Address.
Section Translator.

(** Syntactic validity of the two textual encodings of a destination:
    the long fixed-alphabet full form and the shorter approximate form.
    The spec names them without fixing alphabet or length. *)
Variable isFullForm : string -> bool.
Variable isShortForm : string -> bool.

(** Modelled from the spec: address.go is not among the sources.
    [toGenericAddress]: a generic address is a protocol tag that says
    which overlay form it is, plus the textual destination payload; input
    that is not a syntactically valid destination encoding is rejected
    with [MalformedAddress]. *)
Definition I2PAddrToMultiAddr (d : string) : Multiaddr + error :=
  if isFullForm d then inl [ {| code := P_GARLIC64; value := d |} ]
  else if isShortForm d then inl [ {| code := P_GARLIC32; value := d |} ]
  else inr MalformedAddress.

(** Modelled from the spec: address.go is not among the sources.
    [toDestinationString]: accepts exactly the two overlay tags and
    gives back the payload; every other address is rejected with
    [UnsupportedAddressFamily]. *)
Definition MultiAddrToI2PAddr (a : Multiaddr) : string + error :=
  match a with
  | [c] =>
      if (code c =? P_GARLIC64) || (code c =? P_GARLIC32)
      then inl (value c)
      else inr UnsupportedAddressFamily
  | _ => inr UnsupportedAddressFamily
  end.

End Translator.
End Address.

(** The I2P encodings, for concrete runs: the full form is at least 516
    characters of the I2P base64 alphabet, the short form 52 characters of
    base32. *)
Definition inRange (lo hi c : ascii) : bool :=
  ((nat_of_ascii lo <=? nat_of_ascii c) && (nat_of_ascii c <=? nat_of_ascii hi))%nat.

Definition isBase64Char (c : ascii) : bool :=
  inRange "A" "Z" c || inRange "a" "z" c || inRange "0" "9" c ||
  Ascii.eqb c "-" || Ascii.eqb c "~" || Ascii.eqb c "=".

Definition isBase32Char (c : ascii) : bool :=
  inRange "a" "z" c || inRange "2" "7" c.

Definition i2pFullForm (d : string) : bool :=
  (516 <=? String.length d)%nat && forallb isBase64Char (list_ascii_of_string d).

Definition i2pShortForm (d : string) : bool :=
  (String.length d =? 52)%nat && forallb isBase32Char (list_ascii_of_string d).

(** ** Reading a trace *)

(** A raw or wrapped connection is closed. *)
Definition isConnClose (e : Event) : bool :=
  match e with
  | EvSAMConnClose _ | EvConnectionClose _ => true
  | _ => false
  end.

Definition isScopeDone (e : Event) : bool :=
  match e with EvScopeDone _ => true | _ => false end.

Definition isDialI2P (e : Event) : bool :=
  match e with EvDialI2P _ _ => true | _ => false end.

Definition isOpenConnection (e : Event) : bool :=
  match e with EvOpenConnection _ _ _ => true | _ => false end.

Definition isUpgrade (e : Event) : bool :=
  match e with EvUpgrade _ _ _ _ => true | _ => false end.

Definition isListen (e : Event) : bool :=
  match e with EvListen _ => true | _ => false end.

Definition isListenerClose (e : Event) : bool :=
  match e with EvStreamListenerClose _ => true | _ => false end.

Definition isPrimaryClose (e : Event) : bool :=
  match e with EvPrimaryClose _ => true | _ => false end.

(** A request that creates a session at the provider. *)
Definition isSessionRequest (e : Event) : bool :=
  match e with
  | EvNewPrimarySession _ _ _
  | EvNewStreamSubSession _ _
  | EvNewStreamSubSessionWithPorts _ _ _ _ => true
  | _ => false
  end.

(** The session identifiers a trace asks the provider for, in order. *)
Definition sessionIds (tr : list Event) : list string :=
  flat_map (fun e => match e with
                     | EvNewPrimarySession id _ _ => [id]
                     | EvNewStreamSubSession _ id => [id]
                     | EvNewStreamSubSessionWithPorts _ id _ _ => [id]
                     | _ => []
                     end) tr.

(** The scope an upgrade call is given, if the event is one. *)
Definition upgradeWithoutScope (e : Event) : Prop :=
  match e with
  | EvUpgrade _ _ _ scope => scope = None
  | _ => True
  end.

Definition isUpgradeListener (e : Event) : bool :=
  match e with EvUpgradeListener _ => true | _ => false end.

(** A call of a run that dials: raw dials go to the session named, and
    there is no raw listen. *)
Definition dialsOnly (session : string) (e : Event) : Prop :=
  match e with
  | EvDialI2P s _ => s = session
  | EvListen _ => False
  | _ => True
  end.

(** A call of a run that listens: raw listens go to the session named, and
    there is no raw dial. *)
Definition listensOnly (session : string) (e : Event) : Prop :=
  match e with
  | EvListen s => s = session
  | EvDialI2P _ _ => False
  | _ => True
  end.

(** How many events of a kind a trace holds. *)
Definition count (kind : Event -> bool) (tr : list Event) : nat :=
  length (filter kind tr).

(** Every event of kind [q] comes after some event of kind [p]; [seen]
    says whether a [p] has already passed. *)
Fixpoint onlyAfter (p q : Event -> bool) (seen : bool) (tr : list Event)
    : bool :=
  match tr with
  | [] => true
  | e :: rest =>
      (if q e then seen else true) && onlyAfter p q (seen || p e) rest
  end.

(** The protocol and port pair a sub-session request binds at the router.
    [NewStreamSubSession] asks for a STREAM sub-session on the default
    port 0; [NewStreamSubSessionWithPorts] names its from-port. *)
Definition subSessionBinding (e : Event) : option (string * string) :=
  match e with
  | EvNewStreamSubSession _ _ => Some ("STREAM", "0")
  | EvNewStreamSubSessionWithPorts _ _ from _ => Some ("STREAM", from)
  | _ => None
  end.

(** The outbound request carries the fixed ports. *)
Definition outboundPortsFixed (e : Event) : Prop :=
  match e with
  | EvNewStreamSubSessionWithPorts _ _ from to => from = "1" /\ to = "0"
  | _ => True
  end.

(** ** Concrete collaborators, for runs of the code *)
Module Scenario.

Definition remoteDest : string :=
  string_of_list_ascii (repeat "A"%char 516).
Definition localDest : string :=
  string_of_list_ascii (repeat "B"%char 516).

Definition remoteAddr : Multiaddr :=
  [ {| code := P_GARLIC64; value := remoteDest |} ].
Definition localAddr : Multiaddr :=
  [ {| code := P_GARLIC64; value := localDest |} ].
Definition tcpAddr : Multiaddr :=
  [ {| code := P_IP4; value := "127.0.0.1" |};
    {| code := P_TCP; value := "4001" |} ].

Definition toMultiAddr := Address.I2PAddrToMultiAddr i2pFullForm i2pShortForm.
Definition toI2PAddr := Address.MultiAddrToI2PAddr.

Definition wrapConn (c : SAMConn) (l r : Multiaddr) : Connection + error :=
  inl {| connection_raw := c; connection_local := l; connection_remote := r |}.
Definition wrapListener (l : StreamListener) : TransportListener + error :=
  match toMultiAddr (streamlistener_Addr l) with
  | inl a => inl {| transportlistener_raw := l; transportlistener_addr := a |}
  | inr _ => inr (External "AdapterConstructionFailed")
  end.

Definition rawConn : SAMConn :=
  {| samconn_id := 1; samconn_LocalAddr := localDest;
     samconn_RemoteAddr := remoteDest |}.
(** The raw connection, wrapped. *)
Definition wrapped : Connection :=
  {| connection_raw := rawConn; connection_local := localAddr;
     connection_remote := remoteAddr |}.
Definition rawListener : StreamListener :=
  {| streamlistener_id := 2; streamlistener_Addr := localDest |}.
(** A raw listener that reports an address that does not parse. *)
Definition oddListener : StreamListener :=
  {| streamlistener_id := 3; streamlistener_Addr := "not a destination" |}.

Definition session (id : string) (l : StreamListener) : StreamSession :=
  {| session_id := id;
     session_LocalAddr := localDest;
     DialI2P_result := fun _ => (Some rawConn, None);
     Listen_result := inl l |}.

Definition primary : PrimarySession :=
  {| primary_id := "primarySession-7";
     primary_Addr := localDest;
     NewStreamSubSession_result := fun id => inl (session id rawListener);
     NewStreamSubSessionWithPorts_result :=
       fun id _ _ => inl (session id rawListener) |}.

Definition router : SAM :=
  {| sam_address := "127.0.0.1:7656";
     NewPrimarySession_result := fun _ _ _ => inl primary |}.

Definition keys : I2PKeys := {| keys_Addr := localDest; keys_Both := "" |}.

Definition upgraderOk : transport_Upgrader :=
  {| Upgrade_result := fun _ c _ p s =>
       (Some {| capable_conn := c; capable_peer := p; capable_scope := s |},
        None);
     UpgradeListener_result := fun l => {| listener_inner := l |} |}.
(** An upgrader that answers with neither a connection nor an error. *)
Definition upgraderNil : transport_Upgrader :=
  {| Upgrade_result := fun _ _ _ _ _ => (None, None);
     UpgradeListener_result := fun l => {| listener_inner := l |} |}.

(** An upgrader whose handshake fails. *)
Definition upgraderFail : transport_Upgrader :=
  {| Upgrade_result := fun _ _ _ _ _ => (None, Some (External "handshake failed"));
     UpgradeListener_result := fun l => {| listener_inner := l |} |}.

Definition scope : ConnManagementScope := {| scope_id := 9 |}.
Definition manager : network_ResourceManager :=
  {| OpenConnection_result := fun _ _ _ => (Some scope, None) |}.

Definition transport (u : option transport_Upgrader) (l : StreamListener)
    : I2PTransport :=
  {| Upgrader := u;
     ResourceManager := Some manager;
     sam := router;
     i2PKeys := keys;
     primarySession := primary;
     outboundSession := session "outboundSession-7" rawListener;
     inboundSession := session "inboundSession-7" l |}.

Definition background : GoContext := {| Err := fun _ => None |}.
(** Cancelled from the start. *)
Definition cancelled : GoContext := {| Err := fun _ => Some Canceled |}.
(** Cancelled while the raw dial was blocking. *)
Definition cancelledDuringDial : GoContext :=
  {| Err := fun cp => match cp with
                      | BeforeDial => None
                      | _ => Some Canceled
                      end |}.
(** Cancelled between the check after the dial and the one before the
    upgrade. *)
Definition cancelledBeforeUpgrade : GoContext :=
  {| Err := fun cp => match cp with
                      | BeforeUpgrade | AfterUpgradeError => Some Canceled
                      | _ => None
                      end |}.

(** Further collaborators: sessions, managers and routers that refuse. *)
Definition shortAddr : Multiaddr :=
  [ {| code := P_GARLIC32;
       value := "abcdefghijklmnopqrstuvwxyz234567abcdefghijklmnopqrst" |} ].
(** A translator that only takes the full form back. *)
Definition toI2PAddrFullOnly (a : Multiaddr) : string + error :=
  match a with
  | [c] => if code c =? P_GARLIC64 then inl (value c)
           else inr UnsupportedAddressFamily
  | _ => inr UnsupportedAddressFamily
  end.

Definition sessionNoRoute (id : string) : StreamSession :=
  {| session_id := id;
     session_LocalAddr := localDest;
     DialI2P_result := fun _ => (None, Some (External "no route to destination"));
     Listen_result := inr (External "session is closed") |}.
Definition sessionNilConn (id : string) : StreamSession :=
  {| session_id := id;
     session_LocalAddr := localDest;
     DialI2P_result := fun _ => (None, None);
     Listen_result := inl rawListener |}.

Definition managerFull : network_ResourceManager :=
  {| OpenConnection_result :=
       fun _ _ _ => (None, Some (External "resource limit exceeded")) |}.
(** A manager that answers with neither a scope nor an error. *)
Definition managerNil : network_ResourceManager :=
  {| OpenConnection_result := fun _ _ _ => (None, None) |}.
(** Cancelled while the upgrade was running. *)
Definition cancelledDuringUpgrade : GoContext :=
  {| Err := fun cp => match cp with
                      | AfterUpgradeError => Some Canceled
                      | _ => None
                      end |}.

Definition transportWith (u : option transport_Upgrader)
    (rm : option network_ResourceManager) (out inb : StreamSession)
    : I2PTransport :=
  {| Upgrader := u;
     ResourceManager := rm;
     sam := router;
     i2PKeys := keys;
     primarySession := primary;
     outboundSession := out;
     inboundSession := inb |}.

Definition routerDown : SAM :=
  {| sam_address := "127.0.0.1:7656";
     NewPrimarySession_result := fun _ _ _ => inr (External "SAM unreachable") |}.
Definition routerWith (p : PrimarySession) : SAM :=
  {| sam_address := "127.0.0.1:7656";
     NewPrimarySession_result := fun _ _ _ => inl p |}.
Definition primaryNoInbound : PrimarySession :=
  {| primary_id := "primarySession-7";
     primary_Addr := localDest;
     NewStreamSubSession_result := fun _ => inr (External "duplicated id");
     NewStreamSubSessionWithPorts_result :=
       fun id _ _ => inl (session id rawListener) |}.
Definition primaryNoOutbound : PrimarySession :=
  {| primary_id := "primarySession-7";
     primary_Addr := localDest;
     NewStreamSubSession_result := fun id => inl (session id rawListener);
     NewStreamSubSessionWithPorts_result :=
       fun _ _ _ => inr (External "duplicate protocol and port") |}.
(** A primary session that reports a destination that does not parse. *)
Definition primaryOddAddr : PrimarySession :=
  {| primary_id := "primarySession-7";
     primary_Addr := "not a destination";
     NewStreamSubSession_result := fun id => inl (session id rawListener);
     NewStreamSubSessionWithPorts_result :=
       fun id _ _ => inl (session id rawListener) |}.

End Scenario.

(** ** transport.go *)

Section Transport.

(** Package-level functions of address.go, connection.go and listener.go,
    which are not among the sources: the two directions of the address
    translator and the two adapter constructors.  The transport code is
    modelled over any implementation of them. *)
Variable I2PAddrToMultiAddr : string -> Multiaddr + error.
Variable MultiAddrToI2PAddr : Multiaddr -> string + error.
Variable NewConnection : SAMConn -> Multiaddr -> Multiaddr -> Connection + error.
Variable NewTransportListener : StreamListener -> TransportListener + error.

(** [sam3.Options_Default], a constant of the session provider. *)
Variable Options_Default : list string.

(** [rand.Int()] right after [rand.Seed(seed)]. *)
Variable rand_Int : Z -> Z.

(** [I2PTransportBuilder]: creates the primary session and its two
    sub-sessions, and returns the function that builds the transport,
    with the transport's own listening address. *)
Definition I2PTransportBuilder (sam : SAM) (i2pKeys : I2PKeys)
    (outboundPort : string) (rngSeed : Z)
    : M (option TransportBuilderFunc * option Multiaddr * option error) :=
  let randSessionSuffix := Itoa (rand_Int rngSeed) in
  r <- NewPrimarySession sam ("primarySession-" ++ randSessionSuffix)
         i2pKeys Options_Default ;;
  match r with
  | inr err =>
      ret (None, None,
           Some (Decorate err "Failed to create Primary session with I2P SAM" []))
  | inl samPrimarySession =>
  r <- NewStreamSubSession samPrimarySession
         ("inboundSession-" ++ randSessionSuffix) ;;
  match r with
  | inr err =>
      ret (None, None,
           Some (Decorate err
                   "Failed to create inboundSession subsession with I2P SAM" []))
  | inl inboundSession =>
  r <- NewStreamSubSessionWithPorts samPrimarySession
         ("outboundSession-" ++ randSessionSuffix) "1" "0" ;;
  match r with
  | inr err =>
      ret (None, None,
           Some (Decorate err
                   "Failed to create outbound subsession with I2P SAM" []))
  | inl outboundSession =>
  match I2PAddrToMultiAddr (primary_Addr samPrimarySession) with
  | inr err => ret (None, None, Some err)
  | inl i2pDestination =>
      ret (Some (fun upgrader rcmgr =>
                   (Some {| Upgrader := upgrader;
                            ResourceManager := rcmgr;
                            sam := sam;
                            i2PKeys := i2pKeys;
                            primarySession := samPrimarySession;
                            outboundSession := outboundSession;
                            inboundSession := inboundSession |},
                    None)),
           Some i2pDestination, None)
  end end end end.

(** The last step of [Dial] (lines 178-197): the upgrade and what follows
    it.  Besides the values [Dial] returns, it reports the final value of
    the function's [err] variable, which the deferred function reads. *)
Definition Dial_upgrade (upgrader : transport_Upgrader) (ctx : GoContext)
    (outboundConnection : Connection) (peerID : PeerID)
    (connScope : option ConnManagementScope)
    : M ((option CapableConn * option error) * option error) :=
  '(upgradedConn, err) <-
     Upgrade upgrader ctx outboundConnection DirOutbound peerID connScope ;;
  match err with
  | Some e =>
      Connection_Close outboundConnection ;;
      match Err ctx AfterUpgradeError with
      | Some cerr =>
          ret ((None, Some (Decorate (CtxError cerr)
                              "connection upgrade cancelled or timed out" [])),
               err)
      | None =>
          ret ((None, Some (Decorate e "failed to upgrade connection" [])), err)
      end
  | None =>
      match upgradedConn with
      | None =>
          match connScope with
          | Some s => Done s
          | None => ret tt
          end ;;
          ret ((None,
                Some (Errorf "upgrader returned nil connection without error" [])),
               err)
      | Some upgradedConn => ret ((Some upgradedConn, None), err)
      end
  end.

(** [Dial].  The deferred function (lines 171-175) calls [Done] on the
    scope variable whenever the function's [err] is set on return; on a
    nil scope that call panics. *)
Definition Dial (i2p : I2PTransport) (ctx : GoContext)
    (remoteAddress : Multiaddr) (peerID : PeerID)
    : M (option CapableConn * option error) :=
  if negb (CanDial i2p remoteAddress) then
    ret (None, Some (Errorf "can't dial %q: not a valid I2P address"
                       [ArgAddr remoteAddress]))
  else
  match MultiAddrToI2PAddr remoteAddress with
  | inr err =>
      ret (None, Some (Decorate err
                         "failed to convert multiaddr to I2P address" []))
  | inl remoteNetAddr =>
  match Err ctx BeforeDial with
  | Some cerr =>
      ret (None, Some (Decorate (CtxError cerr)
                         "context cancelled before dial attempt" []))
  | None =>
  '(conn, err) <- DialI2P (outboundSession i2p) remoteNetAddr ;;
  match err with
  | Some err =>
      match Err ctx AfterDialError with
      | Some cerr =>
          ret (None, Some (Decorate (CtxError cerr)
                             "dial cancelled or timed out" []))
      | None =>
          ret (None, Some (Decorate err
            "failed to dial I2P address %s (this may indicate I2P tunnels are not established)"
            [ArgStr remoteNetAddr]))
      end
  | None =>
  match Err ctx AfterDial with
  | Some cerr =>
      match conn with
      | Some conn => SAMConn_Close conn
      | None => ret tt
      end ;;
      ret (None, Some (Decorate (CtxError cerr)
                         "context cancelled after dial" []))
  | None =>
  match conn with
  | None =>
      ret (None, Some (Errorf "DialI2P returned nil connection without error" []))
  | Some conn =>
  match I2PAddrToMultiAddr (session_LocalAddr (outboundSession i2p)) with
  | inr err =>
      SAMConn_Close conn ;;
      ret (None, Some (Decorate err
                         "unable to construct multi-addr from local address" []))
  | inl localAddress =>
  match NewConnection conn localAddress remoteAddress with
  | inr err =>
      SAMConn_Close conn ;;
      ret (None, Some (Decorate err "failed to construct Connection wrapper" []))
  | inl outboundConnection =>
  match Upgrader i2p with
  | None =>
      Connection_Close outboundConnection ;;
      ret (None, Some (Errorf "transport upgrader is nil" []))
  | Some upgrader =>
  match Err ctx BeforeUpgrade with
  | Some cerr =>
      Connection_Close outboundConnection ;;
      ret (None, Some (Decorate (CtxError cerr)
                         "context cancelled before upgrade" []))
  | None =>
  match ResourceManager i2p with
  | Some rm =>
      '(connScope, err) <-
         OpenConnection rm DirOutbound false remoteAddress ;;
      match err with
      | Some err =>
          Connection_Close outboundConnection ;;
          ret (None, Some (Decorate err "failed to open connection scope" []))
      | None =>
          defer (fun err =>
                   match err with
                   | Some _ =>
                       match connScope with
                       | Some connScope => Done connScope
                       | None =>
                           panic "invalid memory address or nil pointer dereference"
                       end
                   | None => ret tt
                   end)
                (Dial_upgrade upgrader ctx outboundConnection peerID connScope)
      end
  | None =>
      '(r, _) <- Dial_upgrade upgrader ctx outboundConnection peerID None ;;
      ret r
  end end end end end end end end end end.

(** [Listen]: the argument is not used.  The call on [i2p.Upgrader] is a
    method call on an interface value, which panics when it is nil. *)
Definition Listen (i2p : I2PTransport) (_ : Multiaddr)
    : M (option Listener * option error) :=
  r <- StreamSession_Listen (inboundSession i2p) ;;
  match r with
  | inr err =>
      ret (None, Some (Decorate err "Unable to call listen on SAM session" []))
  | inl streamListener =>
  match NewTransportListener streamListener with
  | inr err =>
      ret (None, Some (Decorate err "Failed to initialize transport listener" []))
  | inl listener =>
  match Upgrader i2p with
  | None => panic "invalid memory address or nil pointer dereference"
  | Some upgrader =>
      l <- UpgradeListener upgrader listener ;;
      ret (Some l, None)
  end end end.

(** The scopes a run of [Dial] has opened: its [OpenConnection] calls
    that were answered with a scope. *)
Definition scopesOpened (i2p : I2PTransport) (remoteAddress : Multiaddr)
    (tr : list Event) : nat :=
  match ResourceManager i2p with
  | Some rm =>
      match OpenConnection_result rm DirOutbound false remoteAddress with
      | (Some _, _) => count isOpenConnection tr
      | (None, _) => 0%nat
      end
  | None => 0%nat
  end.

(** What every call of a run of [Dial] must look like: the raw dial goes
    to the outbound session with the translated destination; the scope is
    asked for the remote address, outbound and without a file descriptor;
    the upgrade is outbound and for the peer asked for. *)
Definition dialCallOk (i2p : I2PTransport) (remoteAddress : Multiaddr)
    (peerID : PeerID) (e : Event) : Prop :=
  match e with
  | EvDialI2P session dest =>
      session = session_id (outboundSession i2p) /\
      MultiAddrToI2PAddr remoteAddress = inl dest
  | EvOpenConnection dir usefd addr =>
      dir = DirOutbound /\ usefd = false /\ addr = remoteAddress
  | EvUpgrade c dir p _ =>
      dir = DirOutbound /\ p = peerID
  | EvSAMConnClose _ | EvConnectionClose _ | EvScopeDone _ => True
  | _ => False
  end.

(** * Properties *)

(** Case analysis over every path of a function: the innermost test
    first. *)
Ltac go_paths :=
  repeat match goal with
         | |- context [match ?x with _ => _ end] =>
             lazymatch x with
             | context [match _ with _ => _ end] => fail
             | _ => let E := fresh "E" in destruct x eqn:E; cbn
             end
         end.

(** ** Dialability *)

(** [dialMatcher] looks at the first layer only and hands back the rest. *)
Lemma partialMatch_dialMatcher (pcs : list Z) :
  partialMatch dialMatcher pcs =
  match pcs with
  | [] => (false, [])
  | pc :: rest =>
      if (pc =? P_GARLIC64) || (pc =? P_GARLIC32) then (true, rest)
      else (false, [])
  end.
Proof.
  destruct pcs as [|pc rest]; [reflexivity|].
  unfold dialMatcher. cbn [partialMatch].
  destruct (pc =? P_GARLIC64); [reflexivity|].
  destruct (pc =? P_GARLIC32); reflexivity.
Qed.

(** Which addresses [dialMatcher] matches: one layer, with an overlay tag. *)
Lemma Matches_dialMatcher (addr : Multiaddr) :
  Matches dialMatcher addr = true <->
  (ProtocolCodes addr = [P_GARLIC64] \/ ProtocolCodes addr = [P_GARLIC32]).
Proof.
  unfold Matches. rewrite partialMatch_dialMatcher.
  destruct addr as [|c rest]; cbn [ProtocolCodes map].
  - split; [discriminate | intros [H|H]; discriminate].
  - destruct (code c =? P_GARLIC64) eqn:E64; cbn [orb].
    + apply Z.eqb_eq in E64. rewrite E64.
      destruct rest as [|c' rest']; cbn; split; auto; try discriminate.
      intros [H|H]; discriminate.
    + apply Z.eqb_neq in E64.
      destruct (code c =? P_GARLIC32) eqn:E32.
      * apply Z.eqb_eq in E32. rewrite E32.
        destruct rest as [|c' rest']; cbn; split; auto; try discriminate.
        intros [H|H]; discriminate.
      * apply Z.eqb_neq in E32. cbn.
        split; [discriminate|].
        intros [H|H]; inversion H; contradiction.
Qed.

(** C4. [CanDial] accepts an address exactly when its protocol tag is
    garlic64 or garlic32: the address is one layer carrying one of the
    two overlay tags.  Every other address, a TCP/IP one for instance, is
    refused.  [CanDial] is a function of the address alone and logs no
    call. *)
Theorem CanDial_iff_overlay_tag (i2p : I2PTransport) (addr : Multiaddr) :
  CanDial i2p addr = true <->
  (ProtocolCodes addr = [P_GARLIC64] \/ ProtocolCodes addr = [P_GARLIC32]).
Proof. unfold CanDial. apply Matches_dialMatcher. Qed.

(** An address with a TCP layer is never dialable. *)
Lemma CanDial_tcp_false (i2p : I2PTransport) (addr : Multiaddr) :
  In P_TCP (ProtocolCodes addr) -> CanDial i2p addr = false.
Proof.
  intros Hin. destruct (CanDial i2p addr) eqn:E; [|reflexivity].
  unfold CanDial in E. apply Matches_dialMatcher in E.
  destruct E as [E|E]; rewrite E in Hin; cbn in Hin;
    destruct Hin as [H|[]]; discriminate H.
Qed.

(** C9. [Protocols] is the list garlic64, garlic32, TCP.  No address with
    a TCP layer is dialable, while every tag of a dialable address is in
    the list: the advertised tags strictly contain the dialable ones. *)
Theorem Protocols_strictly_more_than_dialable (i2p : I2PTransport) :
  Protocols i2p = [P_GARLIC64; P_GARLIC32; P_TCP] /\
  (forall addr, In P_TCP (ProtocolCodes addr) -> CanDial i2p addr = false) /\
  (forall addr c, CanDial i2p addr = true -> In c (ProtocolCodes addr) ->
                  In c (Protocols i2p)) /\
  In P_TCP (Protocols i2p) /\
  ~ (exists addr, CanDial i2p addr = true /\ In P_TCP (ProtocolCodes addr)).
Proof.
  split; [reflexivity|].
  split; [apply CanDial_tcp_false|].
  split.
  - intros addr c Hcan Hin. unfold CanDial in Hcan.
    apply Matches_dialMatcher in Hcan.
    destruct Hcan as [E|E]; rewrite E in Hin; cbn in Hin;
      destruct Hin as [H|[]]; subst c; cbn; auto.
  - split; [cbn; auto|].
    intros [addr [Hcan Hin]].
    rewrite (CanDial_tcp_false i2p addr Hin) in Hcan. discriminate.
Qed.


(** ** Dial *)

(** C8. When the context is already cancelled at the check before the
    dial, [Dial] of a dialable, translatable address returns a
    cancellation error and no connection, and has called no collaborator:
    the outbound session's [DialI2P] is never invoked. *)
Theorem Dial_cancelled_before_dial
    (i2p : I2PTransport) (ctx : GoContext) (remoteAddress : Multiaddr)
    (peerID : PeerID) (dest : string) (cerr : CtxErr) :
  CanDial i2p remoteAddress = true ->
  MultiAddrToI2PAddr remoteAddress = inl dest ->
  Err ctx BeforeDial = Some cerr ->
  exists e,
    Dial i2p ctx remoteAddress peerID = (Returned (None, Some e), []) /\
    IsCancellation e = true /\
    count isDialI2P (trace (Dial i2p ctx remoteAddress peerID)) = 0%nat.
Proof.
  intros Hcan Htr Hctx.
  exists (Decorate (CtxError cerr) "context cancelled before dial attempt" []).
  unfold Dial. rewrite Hcan, Htr, Hctx. cbn.
  repeat split; reflexivity.
Qed.

(** C1, as amended.  The raw dial has returned a connection.  If [Dial]
    finds the context cancelled at one of its checks after the dial, it
    closes the connection, raw or wrapped, exactly once, releases the
    scope it opened, and returns a cancellation error with no connection.
    The checks are: right after the dial; before the upgrade, reached
    once the local address is translated, the connection wrapped and an
    upgrader present; and after an upgrade that reported an error, the
    scope having been opened when a resource manager is set.  At the
    first two neither the resource manager nor the upgrader is called. *)
Theorem Dial_cancelled_after_connect
    (i2p : I2PTransport) (ctx : GoContext) (remoteAddress : Multiaddr)
    (peerID : PeerID) (dest : string) (conn : SAMConn) (cerr : CtxErr)
    (localAddress : Multiaddr) (outboundConnection : Connection)
    (upgrader : transport_Upgrader) (scope : option ConnManagementScope)
    (upgraded : option CapableConn) (uerr : error) :
  CanDial i2p remoteAddress = true ->
  MultiAddrToI2PAddr remoteAddress = inl dest ->
  Err ctx BeforeDial = None ->
  DialI2P_result (outboundSession i2p) dest = (Some conn, None) ->
  Err ctx AfterDial = Some cerr \/
  (Err ctx AfterDial = None /\
   I2PAddrToMultiAddr (session_LocalAddr (outboundSession i2p)) = inl localAddress /\
   NewConnection conn localAddress remoteAddress = inl outboundConnection /\
   Upgrader i2p = Some upgrader /\
   Err ctx BeforeUpgrade = Some cerr) \/
  (Err ctx AfterDial = None /\
   I2PAddrToMultiAddr (session_LocalAddr (outboundSession i2p)) = inl localAddress /\
   NewConnection conn localAddress remoteAddress = inl outboundConnection /\
   Upgrader i2p = Some upgrader /\
   Err ctx BeforeUpgrade = None /\
   ((ResourceManager i2p = None /\ scope = None) \/
    (exists rm s, ResourceManager i2p = Some rm /\
       OpenConnection_result rm DirOutbound false remoteAddress = (Some s, None) /\
       scope = Some s)) /\
   Upgrade_result upgrader ctx outboundConnection DirOutbound peerID scope
     = (upgraded, Some uerr) /\
   Err ctx AfterUpgradeError = Some cerr) ->
  exists e tr,
    Dial i2p ctx remoteAddress peerID = (Returned (None, Some e), tr) /\
    IsCancellation e = true /\
    Cause e = CtxError cerr /\
    count isConnClose tr = 1%nat /\
    (In (EvSAMConnClose conn) tr \/ In (EvConnectionClose outboundConnection) tr) /\
    count isScopeDone tr = count isOpenConnection tr /\
    (Err ctx AfterDial = Some cerr \/ Err ctx BeforeUpgrade = Some cerr ->
     exists closing,
       tr = [EvDialI2P (session_id (outboundSession i2p)) dest; closing]).
Proof.
  intros Hcan Htr Hpre Hdial
    [Hafter
    | [(Hafter & Hloc & Hwrap & Hup & Hbefore)
      | (Hafter & Hloc & Hwrap & Hup & Hbefore & Hscope & Hupg & Hlate)]].
  - exists (Decorate (CtxError cerr) "context cancelled after dial" []).
    eexists.
    unfold Dial, DialI2P. rewrite Hcan, Htr, Hpre. cbn.
    rewrite Hdial, Hafter. cbn.
    split; [reflexivity|].
    do 5 (split; [solve [cbn; auto 10]|]).
    intros _. eexists. reflexivity.
  - exists (Decorate (CtxError cerr) "context cancelled before upgrade" []).
    eexists.
    unfold Dial, DialI2P. rewrite Hcan, Htr, Hpre. cbn.
    rewrite Hdial, Hafter, Hloc, Hwrap, Hup, Hbefore. cbn.
    split; [reflexivity|].
    do 5 (split; [solve [cbn; auto 10]|]).
    intros _. eexists. reflexivity.
  - exists (Decorate (CtxError cerr)
              "connection upgrade cancelled or timed out" []).
    unfold Dial, DialI2P. rewrite Hcan, Htr, Hpre. cbn.
    rewrite Hdial, Hafter, Hloc, Hwrap, Hup, Hbefore. cbn.
    destruct Hscope as [(Hrm & Hs) | (rm & s & Hrm & Hopen & Hs)];
      subst scope; rewrite Hrm;
      unfold OpenConnection, defer, Dial_upgrade, Upgrade; cbn.
    + rewrite Hupg. cbn. rewrite Hlate. cbn.
      eexists. split; [reflexivity|]. cbn.
      do 5 (split; [solve [cbn; auto 10]|]).
      intros [H|H]; congruence.
    + rewrite Hopen. cbn. rewrite Hupg. cbn. rewrite Hlate. cbn.
      eexists. split; [reflexivity|]. cbn.
      do 5 (split; [solve [cbn; auto 10]|]).
      intros [H|H]; congruence.
Qed.


(** X27. Once the raw dial has returned a connection, every failure that
    a step reports closes the connection exactly once and releases every
    scope that was opened exactly once.  The upgrader is taken to answer
    with a connection or an error, and the resource manager with a scope
    or an error. *)
Lemma Dial_releases_on_reported_failure
    (i2p : I2PTransport) (ctx : GoContext) (remoteAddress : Multiaddr)
    (peerID : PeerID) (dest : string) (conn : SAMConn) :
  CanDial i2p remoteAddress = true ->
  MultiAddrToI2PAddr remoteAddress = inl dest ->
  Err ctx BeforeDial = None ->
  DialI2P_result (outboundSession i2p) dest = (Some conn, None) ->
  (forall u c s, Upgrader i2p = Some u ->
     Upgrade_result u ctx c DirOutbound peerID s <> (None, None)) ->
  (forall rm, ResourceManager i2p = Some rm ->
     (exists s, OpenConnection_result rm DirOutbound false remoteAddress
                = (Some s, None)) \/
     (exists e, OpenConnection_result rm DirOutbound false remoteAddress
                = (None, Some e))) ->
  exists c e tr,
    Dial i2p ctx remoteAddress peerID = (Returned (c, e), tr) /\
    (e <> None ->
     count isConnClose tr = 1%nat /\
     count isScopeDone tr = scopesOpened i2p remoteAddress tr).
Proof.
  intros Hcan Htr Hpre Hdial Hup Hrm.
  unfold Dial, DialI2P, scopesOpened. rewrite Hcan, Htr, Hpre. cbn.
  rewrite Hdial. cbn.
  unfold Dial_upgrade, defer, OpenConnection, Upgrade,
    Connection_Close, SAMConn_Close, Done.
  cbn.
  destruct (ResourceManager i2p) as [rm|] eqn:Erm.
  - destruct (Hrm rm eq_refl) as [[s Hs] | [e Hs]]; rewrite Hs; cbn;
      go_paths.
    all: try (exfalso; eapply Hup; eauto; fail).
    all: do 3 eexists; split; [reflexivity|]; cbn.
    all: intros; try congruence; split; reflexivity.
  - go_paths.
    all: try (exfalso; eapply Hup; eauto; fail).
    all: do 3 eexists; split; [reflexivity|]; cbn.
    all: intros; try congruence; split; reflexivity.
Qed.

(** C2. The failing run: every step up to the upgrade succeeds, a scope
    is opened, and the upgrader answers with neither a connection nor an
    error.  [Dial] releases the scope and returns an error, but the
    wrapped connection is never closed. *)
Theorem Dial_nil_upgrade_leaves_connection_open
    (i2p : I2PTransport) (ctx : GoContext) (remoteAddress : Multiaddr)
    (peerID : PeerID) (dest : string) (conn : SAMConn)
    (localAddress : Multiaddr) (outboundConnection : Connection)
    (upgrader : transport_Upgrader) (rm : network_ResourceManager)
    (connScope : ConnManagementScope) :
  CanDial i2p remoteAddress = true ->
  MultiAddrToI2PAddr remoteAddress = inl dest ->
  (forall cp, Err ctx cp = None) ->
  DialI2P_result (outboundSession i2p) dest = (Some conn, None) ->
  I2PAddrToMultiAddr (session_LocalAddr (outboundSession i2p)) = inl localAddress ->
  NewConnection conn localAddress remoteAddress = inl outboundConnection ->
  Upgrader i2p = Some upgrader ->
  ResourceManager i2p = Some rm ->
  OpenConnection_result rm DirOutbound false remoteAddress
    = (Some connScope, None) ->
  Upgrade_result upgrader ctx outboundConnection DirOutbound peerID
    (Some connScope) = (None, None) ->
  Dial i2p ctx remoteAddress peerID =
    (Returned
       (None, Some (Errorf "upgrader returned nil connection without error" [])),
     [EvDialI2P (session_id (outboundSession i2p)) dest;
      EvOpenConnection DirOutbound false remoteAddress;
      EvUpgrade outboundConnection DirOutbound peerID (Some connScope);
      EvScopeDone connScope]) /\
  count isConnClose (trace (Dial i2p ctx remoteAddress peerID)) = 0%nat /\
  count isScopeDone (trace (Dial i2p ctx remoteAddress peerID)) = 1%nat.
Proof.
  intros Hcan Htr Hctx Hdial Hloc Hwrap Hup Hrm Hopen Hupg.
  assert (Hrun : Dial i2p ctx remoteAddress peerID =
    (Returned
       (None, Some (Errorf "upgrader returned nil connection without error" [])),
     [EvDialI2P (session_id (outboundSession i2p)) dest;
      EvOpenConnection DirOutbound false remoteAddress;
      EvUpgrade outboundConnection DirOutbound peerID (Some connScope);
      EvScopeDone connScope])).
  { unfold Dial, DialI2P. rewrite Hcan, Htr, !Hctx. cbn.
    rewrite Hdial. cbn. rewrite Hloc, Hwrap, Hup, Hrm.
    unfold OpenConnection, defer, Dial_upgrade, Upgrade. cbn.
    rewrite Hopen. cbn. rewrite Hupg. cbn. reflexivity. }
  rewrite Hrun. cbn. auto.
Qed.

(** ** Listen *)

(** C6. The failing run: the raw listen succeeds and wrapping the raw
    listener fails.  [Listen] returns the error after the one raw listen
    call; the raw listener is never closed. *)
Theorem Listen_wrap_failure_leaves_listener_open
    (i2p : I2PTransport) (addr : Multiaddr) (streamListener : StreamListener)
    (err : error) :
  Listen_result (inboundSession i2p) = inl streamListener ->
  NewTransportListener streamListener = inr err ->
  Listen i2p addr =
    (Returned
       (None, Some (Decorate err "Failed to initialize transport listener" [])),
     [EvListen (session_id (inboundSession i2p))]) /\
  count isListenerClose (trace (Listen i2p addr)) = 0%nat.
Proof.
  intros Hl Hw.
  assert (Hrun : Listen i2p addr =
    (Returned
       (None, Some (Decorate err "Failed to initialize transport listener" [])),
     [EvListen (session_id (inboundSession i2p))])).
  { unfold Listen, StreamSession_Listen. cbn. rewrite Hl, Hw. reflexivity. }
  rewrite Hrun. cbn. auto.
Qed.

(** [Listen] never closes a raw listener, on any path. *)
Lemma Listen_never_closes_listener (i2p : I2PTransport) (addr : Multiaddr) :
  count isListenerClose (trace (Listen i2p addr)) = 0%nat.
Proof.
  unfold Listen, StreamSession_Listen, UpgradeListener. cbn.
  go_paths; reflexivity.
Qed.

(** C7. [Listen] does not depend on its address argument: two calls on
    the same transport make the same calls and return the same result.
    The first call is the raw listen on the inbound session, and it is
    the only raw listen. *)
Theorem Listen_ignores_address (i2p : I2PTransport) (a1 a2 : Multiaddr) :
  Listen i2p a1 = Listen i2p a2 /\
  exists rest,
    trace (Listen i2p a1) = EvListen (session_id (inboundSession i2p)) :: rest /\
    count isListen rest = 0%nat.
Proof.
  split; [reflexivity|].
  unfold Listen, StreamSession_Listen, UpgradeListener. cbn.
  go_paths; eexists; split; reflexivity.
Qed.


(** ** The builder *)

(** C5. Whenever the builder succeeds, it has made exactly three calls
    on the session provider: the primary session, the inbound
    sub-session on the default port, and the outbound sub-session on
    from-port 1.  The two sub-session requests bind different protocol
    and port pairs, and the transport that is built holds the sessions
    these requests returned. *)
Theorem builder_sessions_on_distinct_ports
    (sam : SAM) (i2pKeys : I2PKeys) (outboundPort : string) (rngSeed : Z)
    (f : option TransportBuilderFunc) (a : option Multiaddr)
    (tr : list Event) :
  I2PTransportBuilder sam i2pKeys outboundPort rngSeed =
    (Returned (f, a, None), tr) ->
  exists primary inbound outbound requestIn requestOut,
    tr = [EvNewPrimarySession
            ("primarySession-" ++ Itoa (rand_Int rngSeed)) i2pKeys
            Options_Default;
          requestIn; requestOut] /\
    requestIn = EvNewStreamSubSession (primary_id primary)
                  ("inboundSession-" ++ Itoa (rand_Int rngSeed)) /\
    requestOut = EvNewStreamSubSessionWithPorts (primary_id primary)
                   ("outboundSession-" ++ Itoa (rand_Int rngSeed)) "1" "0" /\
    subSessionBinding requestIn = Some ("STREAM", "0") /\
    subSessionBinding requestOut = Some ("STREAM", "1") /\
    subSessionBinding requestIn <> subSessionBinding requestOut /\
    exists build,
      f = Some build /\
      forall u rm, exists t,
        build u rm = (Some t, None) /\
        primarySession t = primary /\
        inboundSession t = inbound /\
        outboundSession t = outbound.
Proof.
  unfold I2PTransportBuilder, NewPrimarySession, NewStreamSubSession,
    NewStreamSubSessionWithPorts.
  cbn.
  destruct (NewPrimarySession_result sam _ i2pKeys Options_Default)
    as [primary|e0]; cbn; [|discriminate].
  destruct (NewStreamSubSession_result primary _) as [inbound|e1]; cbn;
    [|discriminate].
  destruct (NewStreamSubSessionWithPorts_result primary _ "1" "0")
    as [outbound|e2]; cbn; [|discriminate].
  destruct (I2PAddrToMultiAddr (primary_Addr primary)) as [dst|e3]; cbn;
    [|discriminate].
  intros H. inversion H; subst; clear H.
  exists primary, inbound, outbound. do 2 eexists.
  repeat split; try reflexivity.
  - cbn. discriminate.
  - eexists. split; [reflexivity|].
    intros u rm. eexists. repeat split.
Qed.

(** C10. The builder does not read [outboundPort]: with the other inputs
    equal, two values of it give the same calls on the session provider
    and the same results.  Whenever the outbound sub-session is
    requested, the request carries from-port 1 and to-port 0. *)
Theorem builder_ignores_outboundPort
    (sam : SAM) (i2pKeys : I2PKeys) (port1 port2 : string) (rngSeed : Z) :
  I2PTransportBuilder sam i2pKeys port1 rngSeed =
  I2PTransportBuilder sam i2pKeys port2 rngSeed /\
  Forall outboundPortsFixed
    (trace (I2PTransportBuilder sam i2pKeys port1 rngSeed)).
Proof.
  split; [reflexivity|].
  unfold I2PTransportBuilder, NewPrimarySession, NewStreamSubSession,
    NewStreamSubSessionWithPorts.
  cbn. go_paths.
  all: repeat constructor.
Qed.

(** ** Dial: the paths that fail before a connection exists *)

(** X1. An address that [CanDial] refuses is never dialled: [Dial] returns
    the error that names the address and calls no collaborator, whatever
    the state of the context. *)
Theorem Dial_refuses_undialable_address
    (i2p : I2PTransport) (ctx : GoContext) (remoteAddress : Multiaddr)
    (peerID : PeerID) :
  CanDial i2p remoteAddress = false ->
  Dial i2p ctx remoteAddress peerID =
    (Returned (None, Some (Errorf "can't dial %q: not a valid I2P address"
                             [ArgAddr remoteAddress])),
     []).
Proof. intros Hcan. unfold Dial. rewrite Hcan. reflexivity. Qed.

(** X2. When the translator rejects a dialable address, [Dial] returns the
    translator's error under one decoration and calls no collaborator,
    whatever the state of the context. *)
Theorem Dial_translation_failure
    (i2p : I2PTransport) (ctx : GoContext) (remoteAddress : Multiaddr)
    (peerID : PeerID) (err : error) :
  CanDial i2p remoteAddress = true ->
  MultiAddrToI2PAddr remoteAddress = inr err ->
  exists e,
    Dial i2p ctx remoteAddress peerID = (Returned (None, Some e), []) /\
    e = Decorate err "failed to convert multiaddr to I2P address" [] /\
    Cause e = Cause err.
Proof.
  intros Hcan Htr. eexists. unfold Dial. rewrite Hcan, Htr. cbn.
  repeat split.
Qed.

(** X3. When the raw dial reports an error, the only call is that dial and
    nothing is closed, even if a connection came with the error.  The
    error returned is the context's when the context is cancelled by then,
    and otherwise the dial's own error, decorated with the destination. *)
Theorem Dial_raw_dial_failure
    (i2p : I2PTransport) (ctx : GoContext) (remoteAddress : Multiaddr)
    (peerID : PeerID) (dest : string) (conn : option SAMConn) (err : error) :
  CanDial i2p remoteAddress = true ->
  MultiAddrToI2PAddr remoteAddress = inl dest ->
  Err ctx BeforeDial = None ->
  DialI2P_result (outboundSession i2p) dest = (conn, Some err) ->
  Dial i2p ctx remoteAddress peerID =
    (Returned
       (None,
        Some match Err ctx AfterDialError with
             | Some cerr =>
                 Decorate (CtxError cerr) "dial cancelled or timed out" []
             | None =>
                 Decorate err
                   "failed to dial I2P address %s (this may indicate I2P tunnels are not established)"
                   [ArgStr dest]
             end),
     [EvDialI2P (session_id (outboundSession i2p)) dest]).
Proof.
  intros Hcan Htr Hpre Hdial.
  unfold Dial, DialI2P. rewrite Hcan, Htr, Hpre. cbn. rewrite Hdial. cbn.
  destruct (Err ctx AfterDialError); reflexivity.
Qed.

(** X4. When the raw dial returns neither a connection nor an error, the
    only call is that dial and [Dial] returns an error: the context's when
    it is cancelled by then, and otherwise one that says so. *)
Theorem Dial_nil_connection
    (i2p : I2PTransport) (ctx : GoContext) (remoteAddress : Multiaddr)
    (peerID : PeerID) (dest : string) :
  CanDial i2p remoteAddress = true ->
  MultiAddrToI2PAddr remoteAddress = inl dest ->
  Err ctx BeforeDial = None ->
  DialI2P_result (outboundSession i2p) dest = (None, None) ->
  Dial i2p ctx remoteAddress peerID =
    (Returned
       (None,
        Some match Err ctx AfterDial with
             | Some cerr =>
                 Decorate (CtxError cerr) "context cancelled after dial" []
             | None =>
                 Errorf "DialI2P returned nil connection without error" []
             end),
     [EvDialI2P (session_id (outboundSession i2p)) dest]).
Proof.
  intros Hcan Htr Hpre Hdial.
  unfold Dial, DialI2P. rewrite Hcan, Htr, Hpre. cbn. rewrite Hdial. cbn.
  destruct (Err ctx AfterDial); reflexivity.
Qed.

(** ** Dial: the paths that fail with a connection in hand *)

(** X5. With no upgrader set, a dial that connects closes the wrapped
    connection and returns an error; no scope is opened, and the check of
    the context before the upgrade is not reached. *)
Theorem Dial_without_upgrader
    (i2p : I2PTransport) (ctx : GoContext) (remoteAddress : Multiaddr)
    (peerID : PeerID) (dest : string) (conn : SAMConn)
    (localAddress : Multiaddr) (outboundConnection : Connection) :
  CanDial i2p remoteAddress = true ->
  MultiAddrToI2PAddr remoteAddress = inl dest ->
  Err ctx BeforeDial = None ->
  DialI2P_result (outboundSession i2p) dest = (Some conn, None) ->
  Err ctx AfterDial = None ->
  I2PAddrToMultiAddr (session_LocalAddr (outboundSession i2p)) = inl localAddress ->
  NewConnection conn localAddress remoteAddress = inl outboundConnection ->
  Upgrader i2p = None ->
  Dial i2p ctx remoteAddress peerID =
    (Returned (None, Some (Errorf "transport upgrader is nil" [])),
     [EvDialI2P (session_id (outboundSession i2p)) dest;
      EvConnectionClose outboundConnection]).
Proof.
  intros Hcan Htr Hpre Hdial Hafter Hloc Hwrap Hup.
  unfold Dial, DialI2P. rewrite Hcan, Htr, Hpre. cbn. rewrite Hdial. cbn.
  rewrite Hafter, Hloc, Hwrap, Hup. reflexivity.
Qed.

(** X6. When the resource manager refuses the scope, [Dial] closes the
    wrapped connection and returns the manager's error under one
    decoration; the upgrader is never called and no scope is released,
    whatever came with the error. *)
Theorem Dial_scope_refused
    (i2p : I2PTransport) (ctx : GoContext) (remoteAddress : Multiaddr)
    (peerID : PeerID) (dest : string) (conn : SAMConn)
    (localAddress : Multiaddr) (outboundConnection : Connection)
    (upgrader : transport_Upgrader) (rm : network_ResourceManager)
    (scope : option ConnManagementScope) (err : error) :
  CanDial i2p remoteAddress = true ->
  MultiAddrToI2PAddr remoteAddress = inl dest ->
  Err ctx BeforeDial = None ->
  DialI2P_result (outboundSession i2p) dest = (Some conn, None) ->
  Err ctx AfterDial = None ->
  I2PAddrToMultiAddr (session_LocalAddr (outboundSession i2p)) = inl localAddress ->
  NewConnection conn localAddress remoteAddress = inl outboundConnection ->
  Upgrader i2p = Some upgrader ->
  Err ctx BeforeUpgrade = None ->
  ResourceManager i2p = Some rm ->
  OpenConnection_result rm DirOutbound false remoteAddress
    = (scope, Some err) ->
  Dial i2p ctx remoteAddress peerID =
    (Returned (None, Some (Decorate err "failed to open connection scope" [])),
     [EvDialI2P (session_id (outboundSession i2p)) dest;
      EvOpenConnection DirOutbound false remoteAddress;
      EvConnectionClose outboundConnection]).
Proof.
  intros Hcan Htr Hpre Hdial Hafter Hloc Hwrap Hup Hbefore Hrm Hopen.
  unfold Dial, DialI2P. rewrite Hcan, Htr, Hpre. cbn. rewrite Hdial. cbn.
  rewrite Hafter, Hloc, Hwrap, Hup, Hbefore, Hrm.
  unfold OpenConnection. cbn. rewrite Hopen. reflexivity.
Qed.

(** X7. When the upgrade reports an error after a scope was opened, [Dial]
    closes the wrapped connection first and releases the scope last, once
    each.  The error returned is the context's when the context is
    cancelled by then, and otherwise the upgrader's, decorated. *)
Theorem Dial_upgrade_error
    (i2p : I2PTransport) (ctx : GoContext) (remoteAddress : Multiaddr)
    (peerID : PeerID) (dest : string) (conn : SAMConn)
    (localAddress : Multiaddr) (outboundConnection : Connection)
    (upgrader : transport_Upgrader) (rm : network_ResourceManager)
    (connScope : ConnManagementScope) (upgraded : option CapableConn)
    (err : error) :
  CanDial i2p remoteAddress = true ->
  MultiAddrToI2PAddr remoteAddress = inl dest ->
  Err ctx BeforeDial = None ->
  DialI2P_result (outboundSession i2p) dest = (Some conn, None) ->
  Err ctx AfterDial = None ->
  I2PAddrToMultiAddr (session_LocalAddr (outboundSession i2p)) = inl localAddress ->
  NewConnection conn localAddress remoteAddress = inl outboundConnection ->
  Upgrader i2p = Some upgrader ->
  Err ctx BeforeUpgrade = None ->
  ResourceManager i2p = Some rm ->
  OpenConnection_result rm DirOutbound false remoteAddress
    = (Some connScope, None) ->
  Upgrade_result upgrader ctx outboundConnection DirOutbound peerID
    (Some connScope) = (upgraded, Some err) ->
  Dial i2p ctx remoteAddress peerID =
    (Returned
       (None,
        Some match Err ctx AfterUpgradeError with
             | Some cerr =>
                 Decorate (CtxError cerr)
                   "connection upgrade cancelled or timed out" []
             | None => Decorate err "failed to upgrade connection" []
             end),
     [EvDialI2P (session_id (outboundSession i2p)) dest;
      EvOpenConnection DirOutbound false remoteAddress;
      EvUpgrade outboundConnection DirOutbound peerID (Some connScope);
      EvConnectionClose outboundConnection;
      EvScopeDone connScope]).
Proof.
  intros Hcan Htr Hpre Hdial Hafter Hloc Hwrap Hup Hbefore Hrm Hopen Hupg.
  unfold Dial, DialI2P. rewrite Hcan, Htr, Hpre. cbn. rewrite Hdial. cbn.
  rewrite Hafter, Hloc, Hwrap, Hup, Hbefore, Hrm.
  unfold OpenConnection, defer, Dial_upgrade, Upgrade. cbn.
  rewrite Hopen. cbn. rewrite Hupg. cbn.
  destruct (Err ctx AfterUpgradeError); reflexivity.
Qed.

(** ** Dial: what holds on every path *)

Ltac unfold_dial :=
  unfold Dial, Dial_upgrade, defer, DialI2P, OpenConnection, Upgrade,
    Connection_Close, SAMConn_Close, Done, trace; cbn.

(** X8. On every path [Dial] dials at most once, opens at most one scope,
    upgrades at most once, closes at most once and releases at most once.
    Every scope request, upgrade and close comes after the raw dial in
    the trace, every release comes after a scope request and after an
    upgrade, and [Dial] never listens, creates or closes a session. *)
Theorem Dial_calls_bounded (i2p : I2PTransport) (ctx : GoContext)
    (remoteAddress : Multiaddr) (peerID : PeerID) :
  let tr := trace (Dial i2p ctx remoteAddress peerID) in
  (count isDialI2P tr <= 1)%nat /\
  (count isOpenConnection tr <= 1)%nat /\
  (count isUpgrade tr <= 1)%nat /\
  (count isConnClose tr <= 1)%nat /\
  (count isScopeDone tr <= 1)%nat /\
  onlyAfter isDialI2P isOpenConnection false tr = true /\
  onlyAfter isDialI2P isUpgrade false tr = true /\
  onlyAfter isDialI2P isConnClose false tr = true /\
  onlyAfter isOpenConnection isScopeDone false tr = true /\
  onlyAfter isUpgrade isScopeDone false tr = true /\
  count isListen tr = 0%nat /\
  count isSessionRequest tr = 0%nat /\
  count isPrimaryClose tr = 0%nat.
Proof.
  unfold_dial. go_paths.
  all: cbn; repeat split; try lia; reflexivity.
Qed.

(** X9. Every call of every run of [Dial] is about the request: the raw
    dial goes to the outbound session with the translated destination,
    the scope is asked for the remote address as outbound, and the
    upgrade is outbound and for the peer asked for. *)
Theorem Dial_calls_are_for_the_request (i2p : I2PTransport) (ctx : GoContext)
    (remoteAddress : Multiaddr) (peerID : PeerID) :
  Forall (dialCallOk i2p remoteAddress peerID)
    (trace (Dial i2p ctx remoteAddress peerID)).
Proof.
  unfold_dial. go_paths.
  all: cbn; repeat constructor; auto.
Qed.

(** X10. A connection that [Dial] returns is the one the upgrader returned
    for the wrapped raw connection, with no error beside it: the address
    was dialable and translated, the raw dial and the wrapping succeeded,
    the context was not found cancelled at any check on the way, and the
    upgrade was the last call.  The scope handed to the upgrade is what
    the resource manager answered, nil or not, and nil when no manager
    is set. *)
Theorem Dial_success_comes_from_upgrader
    (i2p : I2PTransport) (ctx : GoContext) (remoteAddress : Multiaddr)
    (peerID : PeerID) (c : CapableConn) (e : option error) (tr : list Event) :
  Dial i2p ctx remoteAddress peerID = (Returned (Some c, e), tr) ->
  e = None /\
  CanDial i2p remoteAddress = true /\
  Err ctx BeforeDial = None /\ Err ctx AfterDial = None /\
  Err ctx BeforeUpgrade = None /\
  exists dest conn localAddress outboundConnection upgrader scope opened,
    MultiAddrToI2PAddr remoteAddress = inl dest /\
    DialI2P_result (outboundSession i2p) dest = (Some conn, None) /\
    I2PAddrToMultiAddr (session_LocalAddr (outboundSession i2p)) = inl localAddress /\
    NewConnection conn localAddress remoteAddress = inl outboundConnection /\
    Upgrader i2p = Some upgrader /\
    Upgrade_result upgrader ctx outboundConnection DirOutbound peerID scope
      = (Some c, None) /\
    tr = (EvDialI2P (session_id (outboundSession i2p)) dest :: opened ++
          [EvUpgrade outboundConnection DirOutbound peerID scope])%list /\
    ((ResourceManager i2p = None /\ scope = None /\ opened = []) \/
     (exists rm,
        ResourceManager i2p = Some rm /\
        OpenConnection_result rm DirOutbound false remoteAddress
          = (scope, None) /\
        opened = [EvOpenConnection DirOutbound false remoteAddress])).
Proof.
  unfold_dial.
  destruct (CanDial i2p remoteAddress) eqn:Hcan; cbn; [|discriminate].
  destruct (MultiAddrToI2PAddr remoteAddress) as [dest|] eqn:Htr; cbn;
    [|discriminate].
  destruct (Err ctx BeforeDial) eqn:Hpre; cbn; [discriminate|].
  destruct (DialI2P_result (outboundSession i2p) dest) as [conn [derr|]]
    eqn:Hdial; cbn.
  { destruct (Err ctx AfterDialError); discriminate. }
  destruct (Err ctx AfterDial) eqn:Hafter; cbn.
  { destruct conn; discriminate. }
  destruct conn as [conn|]; cbn; [|discriminate].
  destruct (I2PAddrToMultiAddr _) as [localAddress|] eqn:Hloc; cbn;
    [|discriminate].
  destruct (NewConnection conn localAddress remoteAddress)
    as [outboundConnection|] eqn:Hwrap; cbn; [|discriminate].
  destruct (Upgrader i2p) as [upgrader|] eqn:Hup; cbn; [|discriminate].
  destruct (Err ctx BeforeUpgrade) eqn:Hbefore; cbn; [discriminate|].
  destruct (ResourceManager i2p) as [rm|] eqn:Hrm; cbn.
  - destruct (OpenConnection_result rm DirOutbound false remoteAddress)
      as [scope [oerr|]] eqn:Hopen; cbn; [discriminate|].
    destruct (Upgrade_result upgrader ctx outboundConnection DirOutbound
                peerID scope) as [[uc|] [uerr|]] eqn:Hupg; cbn;
      try (destruct (Err ctx AfterUpgradeError); destruct scope; discriminate);
      try (destruct scope; discriminate).
    intros H. inversion H; subst; clear H.
    repeat split; auto.
    exists dest, conn, localAddress, outboundConnection, upgrader, scope,
      [EvOpenConnection DirOutbound false remoteAddress].
    repeat split; auto.
    right. exists rm. auto.
  - destruct (Upgrade_result upgrader ctx outboundConnection DirOutbound
                peerID None) as [[uc|] [uerr|]] eqn:Hupg; cbn;
      try (destruct (Err ctx AfterUpgradeError); discriminate);
      try discriminate.
    intros H. inversion H; subst; clear H.
    repeat split; auto.
    exists dest, conn, localAddress, outboundConnection, upgrader, None,
      (@nil Event).
    repeat split; auto.
Qed.

(** X11. Without a resource manager, no run of [Dial] opens or releases a
    scope, and every upgrade is called without one. *)
Theorem Dial_without_resource_manager
    (i2p : I2PTransport) (ctx : GoContext) (remoteAddress : Multiaddr)
    (peerID : PeerID) :
  ResourceManager i2p = None ->
  let tr := trace (Dial i2p ctx remoteAddress peerID) in
  count isOpenConnection tr = 0%nat /\
  count isScopeDone tr = 0%nat /\
  Forall upgradeWithoutScope tr.
Proof.
  intros Hrm. unfold_dial. rewrite Hrm. go_paths.
  all: cbn; repeat split; repeat constructor.
Qed.

(** ** Listen: every path *)

Ltac unfold_listen :=
  unfold Listen, StreamSession_Listen, UpgradeListener, trace; cbn.

(** X12. When the raw listen fails, [Listen] returns the provider's error
    under one decoration after that single call; nothing is wrapped or
    upgraded, and a missing upgrader goes unnoticed. *)
Theorem Listen_raw_failure
    (i2p : I2PTransport) (addr : Multiaddr) (err : error) :
  Listen_result (inboundSession i2p) = inr err ->
  Listen i2p addr =
    (Returned
       (None, Some (Decorate err "Unable to call listen on SAM session" [])),
     [EvListen (session_id (inboundSession i2p))]).
Proof. intros Hl. unfold_listen. rewrite Hl. reflexivity. Qed.

(** X13. When the raw listen and the wrapping succeed and an upgrader is
    set, [Listen] returns the upgrader's listener for the wrapped raw
    listener and no error, after exactly the raw listen and the
    listener upgrade. *)
Theorem Listen_success
    (i2p : I2PTransport) (addr : Multiaddr) (streamListener : StreamListener)
    (listener : TransportListener) (upgrader : transport_Upgrader) :
  Listen_result (inboundSession i2p) = inl streamListener ->
  NewTransportListener streamListener = inl listener ->
  Upgrader i2p = Some upgrader ->
  Listen i2p addr =
    (Returned (Some (UpgradeListener_result upgrader listener), None),
     [EvListen (session_id (inboundSession i2p)); EvUpgradeListener listener]).
Proof.
  intros Hl Hw Hu. unfold_listen. rewrite Hl, Hw, Hu. reflexivity.
Qed.

(** X14. With no upgrader set, [Listen] panics once the raw listener is
    open and wrapped: it returns neither a listener nor an error, and the
    raw listener stays open. *)
Theorem Listen_without_upgrader_panics
    (i2p : I2PTransport) (addr : Multiaddr) (streamListener : StreamListener)
    (listener : TransportListener) :
  Listen_result (inboundSession i2p) = inl streamListener ->
  NewTransportListener streamListener = inl listener ->
  Upgrader i2p = None ->
  exists msg,
    Listen i2p addr = (Panicked msg, [EvListen (session_id (inboundSession i2p))]) /\
    count isListenerClose (trace (Listen i2p addr)) = 0%nat.
Proof.
  intros Hl Hw Hu. eexists. unfold_listen. rewrite Hl, Hw, Hu. cbn.
  split; reflexivity.
Qed.

(** X15. With an upgrader set, [Listen] always returns, with a listener or
    an error and never both; the listener upgrade is called exactly when
    a listener is returned, and no run dials. *)
Theorem Listen_with_upgrader_returns
    (i2p : I2PTransport) (addr : Multiaddr) :
  Upgrader i2p <> None ->
  exists l e tr,
    Listen i2p addr = (Returned (l, e), tr) /\
    (e = None -> l <> None /\ count isUpgradeListener tr = 1%nat) /\
    (e <> None -> l = None /\ count isUpgradeListener tr = 0%nat) /\
    count isDialI2P tr = 0%nat.
Proof.
  intros Hu. unfold_listen. go_paths; try congruence.
  all: do 3 eexists; split; [reflexivity|]; cbn.
  all: repeat split; intros; try congruence; reflexivity.
Qed.

(** ** The builder: every path *)

(** What a successful run of the builder has done. *)
Lemma builder_success_inv
    (sam : SAM) (i2pKeys : I2PKeys) (outboundPort : string) (rngSeed : Z)
    (build : TransportBuilderFunc) (a : option Multiaddr) (e : option error)
    (tr : list Event) :
  I2PTransportBuilder sam i2pKeys outboundPort rngSeed =
    (Returned (Some build, a, e), tr) ->
  exists primary inbound outbound addr,
    NewPrimarySession_result sam
      ("primarySession-" ++ Itoa (rand_Int rngSeed)) i2pKeys Options_Default
      = inl primary /\
    NewStreamSubSession_result primary
      ("inboundSession-" ++ Itoa (rand_Int rngSeed)) = inl inbound /\
    NewStreamSubSessionWithPorts_result primary
      ("outboundSession-" ++ Itoa (rand_Int rngSeed)) "1" "0" = inl outbound /\
    I2PAddrToMultiAddr (primary_Addr primary) = inl addr /\
    e = None /\ a = Some addr /\
    build = (fun upgrader rcmgr =>
               (Some {| Upgrader := upgrader;
                        ResourceManager := rcmgr;
                        sam := sam;
                        i2PKeys := i2pKeys;
                        primarySession := primary;
                        outboundSession := outbound;
                        inboundSession := inbound |},
                None)).
Proof.
  unfold I2PTransportBuilder, NewPrimarySession, NewStreamSubSession,
    NewStreamSubSessionWithPorts.
  cbn.
  destruct (NewPrimarySession_result sam _ i2pKeys Options_Default)
    as [primary|e0] eqn:Hp; cbn; [|discriminate].
  destruct (NewStreamSubSession_result primary _) as [inbound|e1] eqn:Hi; cbn;
    [|discriminate].
  destruct (NewStreamSubSessionWithPorts_result primary _ "1" "0")
    as [outbound|e2] eqn:Ho; cbn; [|discriminate].
  destruct (I2PAddrToMultiAddr (primary_Addr primary)) as [dst|e3] eqn:Ha; cbn;
    [|discriminate].
  intros H. inversion H; subst; clear H.
  exists primary, inbound, outbound, dst. repeat split; assumption.
Qed.

Ltac unfold_builder :=
  unfold I2PTransportBuilder, NewPrimarySession, NewStreamSubSession,
    NewStreamSubSessionWithPorts, trace; cbn.

(** X16. When the primary session cannot be created, the builder returns
    the provider's error under one decoration, with no builder function
    and no address, and asks for no sub-session. *)
Theorem builder_primary_failure
    (sam : SAM) (i2pKeys : I2PKeys) (outboundPort : string) (rngSeed : Z)
    (err : error) :
  NewPrimarySession_result sam
    ("primarySession-" ++ Itoa (rand_Int rngSeed)) i2pKeys Options_Default
    = inr err ->
  I2PTransportBuilder sam i2pKeys outboundPort rngSeed =
    (Returned (None, None,
               Some (Decorate err
                       "Failed to create Primary session with I2P SAM" [])),
     [EvNewPrimarySession ("primarySession-" ++ Itoa (rand_Int rngSeed))
        i2pKeys Options_Default]).
Proof. intros Hp. unfold_builder. cbn in Hp. rewrite Hp. reflexivity. Qed.

(** X17. When the inbound sub-session cannot be created, the builder
    returns the provider's error, decorated; the outbound sub-session is
    never asked for and the primary session is not closed. *)
Theorem builder_inbound_failure
    (sam : SAM) (i2pKeys : I2PKeys) (outboundPort : string) (rngSeed : Z)
    (primary : PrimarySession) (err : error) :
  NewPrimarySession_result sam
    ("primarySession-" ++ Itoa (rand_Int rngSeed)) i2pKeys Options_Default
    = inl primary ->
  NewStreamSubSession_result primary
    ("inboundSession-" ++ Itoa (rand_Int rngSeed)) = inr err ->
  I2PTransportBuilder sam i2pKeys outboundPort rngSeed =
    (Returned (None, None,
               Some (Decorate err
                       "Failed to create inboundSession subsession with I2P SAM"
                       [])),
     [EvNewPrimarySession ("primarySession-" ++ Itoa (rand_Int rngSeed))
        i2pKeys Options_Default;
      EvNewStreamSubSession (primary_id primary)
        ("inboundSession-" ++ Itoa (rand_Int rngSeed))]).
Proof.
  intros Hp Hi. unfold_builder. cbn in Hp, Hi. rewrite Hp. cbn.
  rewrite Hi. reflexivity.
Qed.

(** X18. When the outbound sub-session cannot be created, the builder
    returns the provider's error, decorated, after the three requests;
    neither the primary nor the inbound session is closed. *)
Theorem builder_outbound_failure
    (sam : SAM) (i2pKeys : I2PKeys) (outboundPort : string) (rngSeed : Z)
    (primary : PrimarySession) (inbound : StreamSession) (err : error) :
  NewPrimarySession_result sam
    ("primarySession-" ++ Itoa (rand_Int rngSeed)) i2pKeys Options_Default
    = inl primary ->
  NewStreamSubSession_result primary
    ("inboundSession-" ++ Itoa (rand_Int rngSeed)) = inl inbound ->
  NewStreamSubSessionWithPorts_result primary
    ("outboundSession-" ++ Itoa (rand_Int rngSeed)) "1" "0" = inr err ->
  I2PTransportBuilder sam i2pKeys outboundPort rngSeed =
    (Returned (None, None,
               Some (Decorate err
                       "Failed to create outbound subsession with I2P SAM" [])),
     [EvNewPrimarySession ("primarySession-" ++ Itoa (rand_Int rngSeed))
        i2pKeys Options_Default;
      EvNewStreamSubSession (primary_id primary)
        ("inboundSession-" ++ Itoa (rand_Int rngSeed));
      EvNewStreamSubSessionWithPorts (primary_id primary)
        ("outboundSession-" ++ Itoa (rand_Int rngSeed)) "1" "0"]).
Proof.
  intros Hp Hi Ho. unfold_builder. cbn in Hp, Hi, Ho. rewrite Hp. cbn.
  rewrite Hi. cbn. rewrite Ho. reflexivity.
Qed.

(** X19. When the primary session's own destination does not translate,
    the builder returns the translator's error as it is, without a
    decoration, although all three sessions have been created; none of
    them is closed. *)
Theorem builder_address_failure
    (sam : SAM) (i2pKeys : I2PKeys) (outboundPort : string) (rngSeed : Z)
    (primary : PrimarySession) (inbound outbound : StreamSession)
    (err : error) :
  NewPrimarySession_result sam
    ("primarySession-" ++ Itoa (rand_Int rngSeed)) i2pKeys Options_Default
    = inl primary ->
  NewStreamSubSession_result primary
    ("inboundSession-" ++ Itoa (rand_Int rngSeed)) = inl inbound ->
  NewStreamSubSessionWithPorts_result primary
    ("outboundSession-" ++ Itoa (rand_Int rngSeed)) "1" "0" = inl outbound ->
  I2PAddrToMultiAddr (primary_Addr primary) = inr err ->
  I2PTransportBuilder sam i2pKeys outboundPort rngSeed =
    (Returned (None, None, Some err),
     [EvNewPrimarySession ("primarySession-" ++ Itoa (rand_Int rngSeed))
        i2pKeys Options_Default;
      EvNewStreamSubSession (primary_id primary)
        ("inboundSession-" ++ Itoa (rand_Int rngSeed));
      EvNewStreamSubSessionWithPorts (primary_id primary)
        ("outboundSession-" ++ Itoa (rand_Int rngSeed)) "1" "0"]).
Proof.
  intros Hp Hi Ho Ha. unfold_builder. cbn in Hp, Hi, Ho. rewrite Hp. cbn.
  rewrite Hi. cbn. rewrite Ho. cbn. rewrite Ha. reflexivity.
Qed.

(** X20. The builder always returns: either a builder function and an
    address with no error, after exactly three calls, or an error with
    neither.  Every call it makes creates a session; on no path, failing
    ones included, does it close one. *)
Theorem builder_result_shape
    (sam : SAM) (i2pKeys : I2PKeys) (outboundPort : string) (rngSeed : Z) :
  exists f a e tr,
    I2PTransportBuilder sam i2pKeys outboundPort rngSeed =
      (Returned (f, a, e), tr) /\
    (e = None -> f <> None /\ a <> None /\ length tr = 3%nat) /\
    (e <> None -> f = None /\ a = None /\ (1 <= length tr <= 3)%nat) /\
    count isSessionRequest tr = length tr /\
    count isPrimaryClose tr = 0%nat.
Proof.
  unfold_builder. go_paths.
  all: do 4 eexists; split; [reflexivity|]; cbn.
  all: repeat split; intros; try congruence; try lia.
Qed.

(** X21. On success the builder returns the translation of the primary
    session's own destination as the listening address, and a builder
    function that never fails: it hands the upgrader and the resource
    manager it is given, nil or not, and the provider, keys and primary
    session of this run, to the transport. *)
Theorem builder_success_transport
    (provider : SAM) (i2pKeys : I2PKeys) (outboundPort : string) (rngSeed : Z)
    (build : TransportBuilderFunc) (a : option Multiaddr) (e : option error)
    (tr : list Event) :
  I2PTransportBuilder provider i2pKeys outboundPort rngSeed =
    (Returned (Some build, a, e), tr) ->
  exists primary addr,
    NewPrimarySession_result provider
      ("primarySession-" ++ Itoa (rand_Int rngSeed)) i2pKeys Options_Default
      = inl primary /\
    I2PAddrToMultiAddr (primary_Addr primary) = inl addr /\
    a = Some addr /\ e = None /\
    forall upgrader rcmgr, exists t,
      build upgrader rcmgr = (Some t, None) /\
      Upgrader t = upgrader /\ ResourceManager t = rcmgr /\
      sam t = provider /\ i2PKeys t = i2pKeys /\
      primarySession t = primary.
Proof.
  intros H. apply builder_success_inv in H.
  destruct H as (primary & inbound & outbound & addr & Hp & Hi & Ho & Ha &
                 He & Haddr & Hb).
  exists primary, addr. repeat split; auto.
  intros upgrader rcmgr. subst build. eexists. repeat split.
Qed.

(** X22. The session identifiers the builder asks for are pairwise
    distinct, on every path and for every seed. *)
Theorem builder_session_ids_distinct
    (sam : SAM) (i2pKeys : I2PKeys) (outboundPort : string) (rngSeed : Z) :
  NoDup (sessionIds
           (trace (I2PTransportBuilder sam i2pKeys outboundPort rngSeed))).
Proof.
  unfold_builder. go_paths.
  all: cbn; repeat constructor; cbn.
  all: let H := fresh "H" in
       intros H;
       repeat match type of H with
              | _ \/ _ => destruct H as [H|H]
              end;
       try discriminate H; exact H.
Qed.

(** [strconv.Itoa] gives different numbers different texts. *)
Lemma Itoa_inj (a b : Z) : Itoa a = Itoa b -> a = b.
Proof.
  unfold Itoa. intros H.
  assert (Hnil : forall z, Z.to_int z <> Decimal.Pos Decimal.Nil /\
                           Z.to_int z <> Decimal.Neg Decimal.Nil).
  { intros z. destruct z; cbn; split; try discriminate;
      intros E; inversion E as [E'];
      exact (DecimalPos.Unsigned.to_uint_nonnil _ E'). }
  apply (f_equal NilZero.int_of_string) in H.
  rewrite !NilZero.isi in H by apply Hnil.
  inversion H as [H']. apply DecimalZ.to_int_inj. exact H'.
Qed.

(** The identifiers of a run of the builder are the three prefixes, each
    followed by the run's suffix. *)
Lemma builder_session_ids
    (sam : SAM) (i2pKeys : I2PKeys) (outboundPort : string) (rngSeed : Z)
    (id : string) :
  In id (sessionIds
           (trace (I2PTransportBuilder sam i2pKeys outboundPort rngSeed))) ->
  id = "primarySession-" ++ Itoa (rand_Int rngSeed) \/
  id = "inboundSession-" ++ Itoa (rand_Int rngSeed) \/
  id = "outboundSession-" ++ Itoa (rand_Int rngSeed).
Proof.
  unfold_builder. go_paths.
  all: cbn; intros H;
       repeat match type of H with
              | _ \/ _ => destruct H as [H|H]
              end;
       try contradiction; symmetry in H; auto.
Qed.

(** X23. Two runs of the builder whose random numbers differ share no
    session identifier, whatever the provider, keys and port arguments. *)
Theorem builder_session_ids_differ_across_runs
    (sam1 sam2 : SAM) (keys1 keys2 : I2PKeys) (port1 port2 : string)
    (seed1 seed2 : Z) (id1 id2 : string) :
  rand_Int seed1 <> rand_Int seed2 ->
  In id1 (sessionIds (trace (I2PTransportBuilder sam1 keys1 port1 seed1))) ->
  In id2 (sessionIds (trace (I2PTransportBuilder sam2 keys2 port2 seed2))) ->
  id1 <> id2.
Proof.
  intros Hne H1 H2 Heq.
  apply builder_session_ids in H1. apply builder_session_ids in H2.
  subst id2.
  destruct H1 as [H1|[H1|H1]], H2 as [H2|[H2|H2]]; rewrite H1 in H2;
    cbn in H2; try discriminate H2;
    inversion H2 as [H3]; apply Itoa_inj in H3; contradiction.
Qed.

(** ** The built transport *)

(** X24. Closing a transport that the builder built makes one call: it
    closes the primary session this run of the builder created.  The
    sub-sessions are not closed one by one. *)
Theorem Close_built_transport
    (sam : SAM) (i2pKeys : I2PKeys) (outboundPort : string) (rngSeed : Z)
    (build : TransportBuilderFunc) (a : option Multiaddr) (e : option error)
    (tr : list Event) :
  I2PTransportBuilder sam i2pKeys outboundPort rngSeed =
    (Returned (Some build, a, e), tr) ->
  exists primary,
    NewPrimarySession_result sam
      ("primarySession-" ++ Itoa (rand_Int rngSeed)) i2pKeys Options_Default
      = inl primary /\
    forall upgrader rcmgr, exists t,
      build upgrader rcmgr = (Some t, None) /\
      Close t = (Returned tt, [EvPrimaryClose (primary_id primary)]).
Proof.
  intros H. apply builder_success_inv in H.
  destruct H as (primary & inbound & outbound & addr & Hp & Hi & Ho & Ha &
                 He & Haddr & Hb).
  exists primary. split; [assumption|].
  intros upgrader rcmgr. subst build. eexists. split; reflexivity.
Qed.

(** X25. A transport that the builder built dials only on the sub-session
    created with from-port 1 and listens only on the sub-session created
    on the default port: no run of [Dial] listens, and no run of [Listen]
    dials. *)
Theorem built_transport_uses_its_sessions
    (sam : SAM) (i2pKeys : I2PKeys) (outboundPort : string) (rngSeed : Z)
    (build : TransportBuilderFunc) (a : option Multiaddr) (e : option error)
    (tr : list Event) :
  I2PTransportBuilder sam i2pKeys outboundPort rngSeed =
    (Returned (Some build, a, e), tr) ->
  exists primary inbound outbound,
    NewPrimarySession_result sam
      ("primarySession-" ++ Itoa (rand_Int rngSeed)) i2pKeys Options_Default
      = inl primary /\
    NewStreamSubSession_result primary
      ("inboundSession-" ++ Itoa (rand_Int rngSeed)) = inl inbound /\
    NewStreamSubSessionWithPorts_result primary
      ("outboundSession-" ++ Itoa (rand_Int rngSeed)) "1" "0" = inl outbound /\
    forall upgrader rcmgr, exists t,
      build upgrader rcmgr = (Some t, None) /\
      (forall ctx remoteAddress peerID,
         Forall (dialsOnly (session_id outbound))
           (trace (Dial t ctx remoteAddress peerID))) /\
      (forall addr,
         Forall (listensOnly (session_id inbound)) (trace (Listen t addr))).
Proof.
  intros H. apply builder_success_inv in H.
  destruct H as (primary & inbound & outbound & addr & Hp & Hi & Ho & Ha &
                 He & Haddr & Hb).
  exists primary, inbound, outbound. repeat split; try assumption.
  intros upgrader rcmgr. subst build. eexists. split; [reflexivity|].
  split.
  - intros ctx remoteAddress peerID. unfold_dial. go_paths.
    all: cbn; repeat constructor.
  - intros addr'. unfold_listen. go_paths.
    all: cbn; repeat constructor.
Qed.

End Transport.

(** ** The address translator *)

(** C3. For every syntactically valid full-form destination [d],
    translating [d] to a generic address succeeds and translating that
    address back gives [d]. *)
Theorem Address_round_trip_full_form
    (isFullForm isShortForm : string -> bool) (d : string) :
  isFullForm d = true ->
  exists a,
    Address.I2PAddrToMultiAddr isFullForm isShortForm d = inl a /\
    Address.MultiAddrToI2PAddr a = inl d.
Proof.
  intros Hd. unfold Address.I2PAddrToMultiAddr. rewrite Hd.
  eexists. split; reflexivity.
Qed.

(** ** Concrete runs *)

Section Runs.
Import Scenario.

(** A garlic64 address is dialable; a TCP/IP address, a garlic64 address
    with further layers and the empty address are not. *)
Example CanDial_examples :
  CanDial (transport None rawListener) remoteAddr = true /\
  CanDial (transport None rawListener) tcpAddr = false /\
  CanDial (transport None rawListener) (remoteAddr ++ tcpAddr)%list = false /\
  CanDial (transport None rawListener) [] = false.
Proof. vm_compute. auto. Qed.

(** A dial that goes through: one raw dial, one scope, one upgrade, and
    nothing closed or released. *)
Example Dial_success :
  Dial toMultiAddr toI2PAddr wrapConn
    (transport (Some upgraderOk) rawListener) background remoteAddr "peer" =
    (Returned (Some {| capable_conn := wrapped; capable_peer := "peer";
                       capable_scope := Some scope |}, None),
     [EvDialI2P "outboundSession-7" remoteDest;
      EvOpenConnection DirOutbound false remoteAddr;
      EvUpgrade wrapped DirOutbound "peer" (Some scope)]).
Proof. vm_compute. reflexivity. Qed.

(** A context cancelled while the raw dial was blocking: the raw
    connection is closed right after the dial. *)
Example Dial_cancelled_during_dial :
  Dial toMultiAddr toI2PAddr wrapConn
    (transport (Some upgraderOk) rawListener) cancelledDuringDial
    remoteAddr "peer" =
    (Returned (None, Some (Decorate (CtxError Canceled)
                             "context cancelled after dial" [])),
     [EvDialI2P "outboundSession-7" remoteDest; EvSAMConnClose rawConn]).
Proof. vm_compute. reflexivity. Qed.

(** An upgrade that fails with an error: the wrapped connection is closed
    and the scope released, once each. *)
Example Dial_upgrade_failure_releases :
  Dial toMultiAddr toI2PAddr wrapConn
    (transport (Some upgraderFail) rawListener) background remoteAddr "peer" =
    (Returned (None, Some (Decorate (External "handshake failed")
                             "failed to upgrade connection" [])),
     [EvDialI2P "outboundSession-7" remoteDest;
      EvOpenConnection DirOutbound false remoteAddr;
      EvUpgrade wrapped DirOutbound "peer" (Some scope);
      EvConnectionClose wrapped;
      EvScopeDone scope]).
Proof. vm_compute. reflexivity. Qed.

(** A resource manager that answers with neither a scope nor an error,
    and an upgrade that fails: the wrapped connection is closed, and the
    deferred release of the nil scope panics. *)
Example Dial_nil_scope_panics :
  Dial toMultiAddr toI2PAddr wrapConn
    (transportWith (Some upgraderFail) (Some managerNil)
       (session "outboundSession-7" rawListener)
       (session "inboundSession-7" rawListener))
    background remoteAddr "peer" =
    (Panicked "invalid memory address or nil pointer dereference",
     [EvDialI2P "outboundSession-7" remoteDest;
      EvOpenConnection DirOutbound false remoteAddr;
      EvUpgrade wrapped DirOutbound "peer" None;
      EvConnectionClose wrapped]).
Proof. vm_compute. reflexivity. Qed.

(** [Listen] without an upgrader panics once the listener is wrapped. *)
Example Listen_nil_upgrader_panics :
  Listen wrapListener (transport None rawListener) [] =
    (Panicked "invalid memory address or nil pointer dereference",
     [EvListen "inboundSession-7"]).
Proof. vm_compute. reflexivity. Qed.

End Runs.

Lemma Address_round_trip_full_form_witness :
  i2pFullForm Scenario.remoteDest = true /\
  exists a,
    Address.I2PAddrToMultiAddr i2pFullForm i2pShortForm Scenario.remoteDest
      = inl a /\
    Address.MultiAddrToI2PAddr a = inl Scenario.remoteDest.
Proof.
  split; [vm_compute; reflexivity|].
  apply Address_round_trip_full_form. vm_compute. reflexivity.
Defined.

Lemma Dial_cancelled_before_dial_witness :
  exists e,
    Dial Scenario.toMultiAddr Scenario.toI2PAddr Scenario.wrapConn
      (Scenario.transport (Some Scenario.upgraderOk) Scenario.rawListener)
      Scenario.cancelled Scenario.remoteAddr "peer"
    = (Returned (None, Some e), []) /\
    IsCancellation e = true /\
    count isDialI2P
      (trace (Dial Scenario.toMultiAddr Scenario.toI2PAddr Scenario.wrapConn
                (Scenario.transport (Some Scenario.upgraderOk) Scenario.rawListener)
                Scenario.cancelled Scenario.remoteAddr "peer")) = 0%nat.
Proof.
  apply (Dial_cancelled_before_dial Scenario.toMultiAddr Scenario.toI2PAddr
           Scenario.wrapConn _ Scenario.cancelled Scenario.remoteAddr "peer"
           Scenario.remoteDest Canceled);
    vm_compute; reflexivity.
Defined.

Lemma Dial_cancelled_after_connect_witness :
  exists e tr,
    Dial Scenario.toMultiAddr Scenario.toI2PAddr Scenario.wrapConn
      (Scenario.transport (Some Scenario.upgraderFail) Scenario.rawListener)
      Scenario.cancelledDuringUpgrade Scenario.remoteAddr "peer"
    = (Returned (None, Some e), tr) /\
    IsCancellation e = true /\
    Cause e = CtxError Canceled /\
    count isConnClose tr = 1%nat /\
    (In (EvSAMConnClose Scenario.rawConn) tr \/
     In (EvConnectionClose Scenario.wrapped) tr) /\
    count isScopeDone tr = count isOpenConnection tr /\
    (Err Scenario.cancelledDuringUpgrade AfterDial = Some Canceled \/
     Err Scenario.cancelledDuringUpgrade BeforeUpgrade = Some Canceled ->
     exists closing,
       tr = [EvDialI2P
               (session_id
                  (outboundSession
                     (Scenario.transport (Some Scenario.upgraderFail)
                        Scenario.rawListener)))
               Scenario.remoteDest; closing]).
Proof.
  apply (Dial_cancelled_after_connect Scenario.toMultiAddr Scenario.toI2PAddr
           Scenario.wrapConn
           (Scenario.transport (Some Scenario.upgraderFail) Scenario.rawListener)
           Scenario.cancelledDuringUpgrade Scenario.remoteAddr "peer"
           Scenario.remoteDest Scenario.rawConn Canceled Scenario.localAddr
           Scenario.wrapped Scenario.upgraderFail (Some Scenario.scope)
           None (External "handshake failed")).
  - vm_compute; reflexivity.
  - vm_compute; reflexivity.
  - reflexivity.
  - reflexivity.
  - right. right.
    split; [reflexivity|].
    split; [vm_compute; reflexivity|].
    split; [vm_compute; reflexivity|].
    split; [reflexivity|].
    split; [reflexivity|].
    split.
    { right. exists Scenario.manager, Scenario.scope.
      repeat split; reflexivity. }
    split; reflexivity.
Defined.

(** C1, as stated, fails on two runs in which the raw dial returned a
    connection and the context is cancelled before the upgrade completes.
    With no upgrader set and the context cancelled between the two
    checks, [Dial] closes the connection but returns an error that is
    not a cancellation.  With the context cancelled while the upgrade
    runs and the upgrade succeeding all the same, [Dial] returns the live
    connection and no error, and closes nothing. *)
Lemma Dial_cancelled_after_connect_counterexample :
  (DialI2P_result
     (outboundSession (Scenario.transport None Scenario.rawListener))
     Scenario.remoteDest = (Some Scenario.rawConn, None) /\
   Err Scenario.cancelledBeforeUpgrade BeforeUpgrade = Some Canceled /\
   Dial Scenario.toMultiAddr Scenario.toI2PAddr Scenario.wrapConn
     (Scenario.transport None Scenario.rawListener)
     Scenario.cancelledBeforeUpgrade Scenario.remoteAddr "peer"
   = (Returned (None, Some (Errorf "transport upgrader is nil" [])),
      [EvDialI2P "outboundSession-7" Scenario.remoteDest;
       EvConnectionClose Scenario.wrapped]) /\
   IsCancellation (Errorf "transport upgrader is nil" []) = false) /\
  (DialI2P_result
     (outboundSession
        (Scenario.transport (Some Scenario.upgraderOk) Scenario.rawListener))
     Scenario.remoteDest = (Some Scenario.rawConn, None) /\
   Err Scenario.cancelledDuringUpgrade AfterUpgradeError = Some Canceled /\
   Dial Scenario.toMultiAddr Scenario.toI2PAddr Scenario.wrapConn
     (Scenario.transport (Some Scenario.upgraderOk) Scenario.rawListener)
     Scenario.cancelledDuringUpgrade Scenario.remoteAddr "peer"
   = (Returned (Some {| capable_conn := Scenario.wrapped;
                        capable_peer := "peer";
                        capable_scope := Some Scenario.scope |}, None),
      [EvDialI2P "outboundSession-7" Scenario.remoteDest;
       EvOpenConnection DirOutbound false Scenario.remoteAddr;
       EvUpgrade Scenario.wrapped DirOutbound "peer" (Some Scenario.scope)])).
Proof.
  split.
  - repeat split; vm_compute; reflexivity.
  - repeat split; vm_compute; reflexivity.
Qed.

Lemma Dial_nil_upgrade_leaves_connection_open_witness :
  count isConnClose
    (trace (Dial Scenario.toMultiAddr Scenario.toI2PAddr Scenario.wrapConn
              (Scenario.transport (Some Scenario.upgraderNil) Scenario.rawListener)
              Scenario.background Scenario.remoteAddr "peer")) = 0%nat /\
  count isScopeDone
    (trace (Dial Scenario.toMultiAddr Scenario.toI2PAddr Scenario.wrapConn
              (Scenario.transport (Some Scenario.upgraderNil) Scenario.rawListener)
              Scenario.background Scenario.remoteAddr "peer")) = 1%nat.
Proof.
  apply (Dial_nil_upgrade_leaves_connection_open Scenario.toMultiAddr
           Scenario.toI2PAddr Scenario.wrapConn
           (Scenario.transport (Some Scenario.upgraderNil) Scenario.rawListener)
           Scenario.background Scenario.remoteAddr "peer"
           Scenario.remoteDest Scenario.rawConn Scenario.localAddr
           Scenario.wrapped Scenario.upgraderNil Scenario.manager Scenario.scope);
    try (intros cp); vm_compute; reflexivity.
Defined.

Lemma Listen_wrap_failure_leaves_listener_open_witness :
  Listen Scenario.wrapListener
    (Scenario.transport (Some Scenario.upgraderOk) Scenario.oddListener)
    Scenario.localAddr
  = (Returned
       (None, Some (Decorate (External "AdapterConstructionFailed")
                      "Failed to initialize transport listener" [])),
     [EvListen "inboundSession-7"]) /\
  count isListenerClose
    (trace (Listen Scenario.wrapListener
              (Scenario.transport (Some Scenario.upgraderOk) Scenario.oddListener)
              Scenario.localAddr)) = 0%nat.
Proof.
  apply (Listen_wrap_failure_leaves_listener_open Scenario.wrapListener
           (Scenario.transport (Some Scenario.upgraderOk) Scenario.oddListener)
           Scenario.localAddr Scenario.oddListener
           (External "AdapterConstructionFailed"));
    vm_compute; reflexivity.
Defined.

Lemma builder_sessions_on_distinct_ports_witness :
  exists f a tr,
    I2PTransportBuilder Scenario.toMultiAddr ["inbound.length=3"]
      (fun seed => seed) Scenario.router Scenario.keys "23459" 14
    = (Returned (f, a, None), tr) /\
    exists requestIn requestOut,
      tr = [EvNewPrimarySession "primarySession-14" Scenario.keys
              ["inbound.length=3"];
            requestIn; requestOut] /\
      subSessionBinding requestIn = Some ("STREAM", "0") /\
      subSessionBinding requestOut = Some ("STREAM", "1").
Proof.
  do 3 eexists. split; [reflexivity|].
  destruct (builder_sessions_on_distinct_ports Scenario.toMultiAddr
              ["inbound.length=3"] (fun seed => seed) Scenario.router
              Scenario.keys "23459" 14 _ _ _ eq_refl)
    as (p & i & o & rin & rout & Htr & _ & _ & Hin & Hout & _).
  exists rin, rout. repeat split; assumption.
Defined.

(** ** Witnesses of the further properties *)

Lemma Dial_releases_on_reported_failure_witness :
  exists c e tr,
    Dial Scenario.toMultiAddr Scenario.toI2PAddr Scenario.wrapConn
      (Scenario.transport (Some Scenario.upgraderFail) Scenario.rawListener)
      Scenario.background Scenario.remoteAddr "peer"
    = (Returned (c, e), tr) /\
    (e <> None ->
     count isConnClose tr = 1%nat /\
     count isScopeDone tr =
       scopesOpened
         (Scenario.transport (Some Scenario.upgraderFail) Scenario.rawListener)
         Scenario.remoteAddr tr).
Proof.
  apply Dial_releases_on_reported_failure
    with (dest := Scenario.remoteDest) (conn := Scenario.rawConn).
  - vm_compute; reflexivity.
  - vm_compute; reflexivity.
  - reflexivity.
  - reflexivity.
  - intros u c s Hu. inversion Hu; subst. cbn. discriminate.
  - intros rm Hrm. inversion Hrm; subst. left. exists Scenario.scope.
    reflexivity.
Defined.

Lemma Dial_refuses_undialable_address_witness :
  Dial Scenario.toMultiAddr Scenario.toI2PAddr Scenario.wrapConn
    (Scenario.transport (Some Scenario.upgraderOk) Scenario.rawListener)
    Scenario.cancelled Scenario.tcpAddr "peer"
  = (Returned (None, Some (Errorf "can't dial %q: not a valid I2P address"
                             [ArgAddr Scenario.tcpAddr])),
     []).
Proof.
  apply Dial_refuses_undialable_address. vm_compute; reflexivity.
Defined.

Lemma Dial_translation_failure_witness :
  exists e,
    Dial Scenario.toMultiAddr Scenario.toI2PAddrFullOnly Scenario.wrapConn
      (Scenario.transport (Some Scenario.upgraderOk) Scenario.rawListener)
      Scenario.background Scenario.shortAddr "peer"
    = (Returned (None, Some e), []) /\
    e = Decorate UnsupportedAddressFamily
          "failed to convert multiaddr to I2P address" [] /\
    Cause e = Cause UnsupportedAddressFamily.
Proof.
  apply Dial_translation_failure; vm_compute; reflexivity.
Defined.

Lemma Dial_raw_dial_failure_witness :
  Dial Scenario.toMultiAddr Scenario.toI2PAddr Scenario.wrapConn
    (Scenario.transportWith (Some Scenario.upgraderOk) (Some Scenario.manager)
       (Scenario.sessionNoRoute "outboundSession-7")
       (Scenario.session "inboundSession-7" Scenario.rawListener))
    Scenario.background Scenario.remoteAddr "peer"
  = (Returned
       (None,
        Some (Decorate (External "no route to destination")
                "failed to dial I2P address %s (this may indicate I2P tunnels are not established)"
                [ArgStr Scenario.remoteDest])),
     [EvDialI2P "outboundSession-7" Scenario.remoteDest]).
Proof.
  apply (Dial_raw_dial_failure Scenario.toMultiAddr Scenario.toI2PAddr
           Scenario.wrapConn
           (Scenario.transportWith (Some Scenario.upgraderOk)
              (Some Scenario.manager)
              (Scenario.sessionNoRoute "outboundSession-7")
              (Scenario.session "inboundSession-7" Scenario.rawListener))
           Scenario.background Scenario.remoteAddr "peer"
           Scenario.remoteDest None (External "no route to destination"));
    vm_compute; reflexivity.
Defined.

Lemma Dial_nil_connection_witness :
  Dial Scenario.toMultiAddr Scenario.toI2PAddr Scenario.wrapConn
    (Scenario.transportWith (Some Scenario.upgraderOk) (Some Scenario.manager)
       (Scenario.sessionNilConn "outboundSession-7")
       (Scenario.session "inboundSession-7" Scenario.rawListener))
    Scenario.cancelledDuringDial Scenario.remoteAddr "peer"
  = (Returned
       (None,
        Some (Decorate (CtxError Canceled) "context cancelled after dial" [])),
     [EvDialI2P "outboundSession-7" Scenario.remoteDest]).
Proof.
  apply (Dial_nil_connection Scenario.toMultiAddr Scenario.toI2PAddr
           Scenario.wrapConn
           (Scenario.transportWith (Some Scenario.upgraderOk)
              (Some Scenario.manager)
              (Scenario.sessionNilConn "outboundSession-7")
              (Scenario.session "inboundSession-7" Scenario.rawListener))
           Scenario.cancelledDuringDial Scenario.remoteAddr "peer"
           Scenario.remoteDest);
    vm_compute; reflexivity.
Defined.

Lemma Dial_without_upgrader_witness :
  Dial Scenario.toMultiAddr Scenario.toI2PAddr Scenario.wrapConn
    (Scenario.transport None Scenario.rawListener)
    Scenario.cancelledBeforeUpgrade Scenario.remoteAddr "peer"
  = (Returned (None, Some (Errorf "transport upgrader is nil" [])),
     [EvDialI2P "outboundSession-7" Scenario.remoteDest;
      EvConnectionClose Scenario.wrapped]).
Proof.
  apply (Dial_without_upgrader Scenario.toMultiAddr Scenario.toI2PAddr
           Scenario.wrapConn (Scenario.transport None Scenario.rawListener)
           Scenario.cancelledBeforeUpgrade Scenario.remoteAddr "peer"
           Scenario.remoteDest Scenario.rawConn Scenario.localAddr
           Scenario.wrapped);
    vm_compute; reflexivity.
Defined.

Lemma Dial_scope_refused_witness :
  Dial Scenario.toMultiAddr Scenario.toI2PAddr Scenario.wrapConn
    (Scenario.transportWith (Some Scenario.upgraderOk)
       (Some Scenario.managerFull)
       (Scenario.session "outboundSession-7" Scenario.rawListener)
       (Scenario.session "inboundSession-7" Scenario.rawListener))
    Scenario.background Scenario.remoteAddr "peer"
  = (Returned (None, Some (Decorate (External "resource limit exceeded")
                             "failed to open connection scope" [])),
     [EvDialI2P "outboundSession-7" Scenario.remoteDest;
      EvOpenConnection DirOutbound false Scenario.remoteAddr;
      EvConnectionClose Scenario.wrapped]).
Proof.
  apply (Dial_scope_refused Scenario.toMultiAddr Scenario.toI2PAddr
           Scenario.wrapConn
           (Scenario.transportWith (Some Scenario.upgraderOk)
              (Some Scenario.managerFull)
              (Scenario.session "outboundSession-7" Scenario.rawListener)
              (Scenario.session "inboundSession-7" Scenario.rawListener))
           Scenario.background Scenario.remoteAddr "peer"
           Scenario.remoteDest Scenario.rawConn Scenario.localAddr
           Scenario.wrapped Scenario.upgraderOk Scenario.managerFull
           None (External "resource limit exceeded"));
    vm_compute; reflexivity.
Defined.

Lemma Dial_upgrade_error_witness :
  Dial Scenario.toMultiAddr Scenario.toI2PAddr Scenario.wrapConn
    (Scenario.transport (Some Scenario.upgraderFail) Scenario.rawListener)
    Scenario.background Scenario.remoteAddr "peer"
  = (Returned (None, Some (Decorate (External "handshake failed")
                             "failed to upgrade connection" [])),
     [EvDialI2P "outboundSession-7" Scenario.remoteDest;
      EvOpenConnection DirOutbound false Scenario.remoteAddr;
      EvUpgrade Scenario.wrapped DirOutbound "peer" (Some Scenario.scope);
      EvConnectionClose Scenario.wrapped;
      EvScopeDone Scenario.scope]).
Proof.
  apply (Dial_upgrade_error Scenario.toMultiAddr Scenario.toI2PAddr
           Scenario.wrapConn
           (Scenario.transport (Some Scenario.upgraderFail) Scenario.rawListener)
           Scenario.background Scenario.remoteAddr "peer"
           Scenario.remoteDest Scenario.rawConn Scenario.localAddr
           Scenario.wrapped Scenario.upgraderFail Scenario.manager
           Scenario.scope None (External "handshake failed"));
    vm_compute; reflexivity.
Defined.

Lemma Dial_success_comes_from_upgrader_witness :
  Dial Scenario.toMultiAddr Scenario.toI2PAddr Scenario.wrapConn
    (Scenario.transport (Some Scenario.upgraderOk) Scenario.rawListener)
    Scenario.background Scenario.remoteAddr "peer"
  = (Returned (Some {| capable_conn := Scenario.wrapped;
                       capable_peer := "peer";
                       capable_scope := Some Scenario.scope |}, None),
     [EvDialI2P "outboundSession-7" Scenario.remoteDest;
      EvOpenConnection DirOutbound false Scenario.remoteAddr;
      EvUpgrade Scenario.wrapped DirOutbound "peer" (Some Scenario.scope)]) /\
  CanDial (Scenario.transport (Some Scenario.upgraderOk) Scenario.rawListener)
    Scenario.remoteAddr = true /\
  Err Scenario.background BeforeUpgrade = None.
Proof.
  split; [vm_compute; reflexivity|].
  destruct (Dial_success_comes_from_upgrader Scenario.toMultiAddr
              Scenario.toI2PAddr Scenario.wrapConn
              (Scenario.transport (Some Scenario.upgraderOk) Scenario.rawListener)
              Scenario.background Scenario.remoteAddr "peer"
              {| capable_conn := Scenario.wrapped; capable_peer := "peer";
                 capable_scope := Some Scenario.scope |}
              None
              [EvDialI2P "outboundSession-7" Scenario.remoteDest;
               EvOpenConnection DirOutbound false Scenario.remoteAddr;
               EvUpgrade Scenario.wrapped DirOutbound "peer"
                 (Some Scenario.scope)]
              eq_refl)
    as (_ & Hcan & _ & _ & Hbefore & _).
  split; assumption.
Defined.

Lemma Dial_without_resource_manager_witness :
  count isOpenConnection
    (trace (Dial Scenario.toMultiAddr Scenario.toI2PAddr Scenario.wrapConn
              (Scenario.transportWith (Some Scenario.upgraderOk) None
                 (Scenario.session "outboundSession-7" Scenario.rawListener)
                 (Scenario.session "inboundSession-7" Scenario.rawListener))
              Scenario.background Scenario.remoteAddr "peer")) = 0%nat /\
  count isScopeDone
    (trace (Dial Scenario.toMultiAddr Scenario.toI2PAddr Scenario.wrapConn
              (Scenario.transportWith (Some Scenario.upgraderOk) None
                 (Scenario.session "outboundSession-7" Scenario.rawListener)
                 (Scenario.session "inboundSession-7" Scenario.rawListener))
              Scenario.background Scenario.remoteAddr "peer")) = 0%nat /\
  Forall upgradeWithoutScope
    (trace (Dial Scenario.toMultiAddr Scenario.toI2PAddr Scenario.wrapConn
              (Scenario.transportWith (Some Scenario.upgraderOk) None
                 (Scenario.session "outboundSession-7" Scenario.rawListener)
                 (Scenario.session "inboundSession-7" Scenario.rawListener))
              Scenario.background Scenario.remoteAddr "peer")).
Proof.
  apply (Dial_without_resource_manager Scenario.toMultiAddr Scenario.toI2PAddr
           Scenario.wrapConn
           (Scenario.transportWith (Some Scenario.upgraderOk) None
              (Scenario.session "outboundSession-7" Scenario.rawListener)
              (Scenario.session "inboundSession-7" Scenario.rawListener))
           Scenario.background Scenario.remoteAddr "peer").
  reflexivity.
Defined.

Lemma Listen_raw_failure_witness :
  Listen Scenario.wrapListener
    (Scenario.transportWith None (Some Scenario.manager)
       (Scenario.session "outboundSession-7" Scenario.rawListener)
       (Scenario.sessionNoRoute "inboundSession-7"))
    Scenario.localAddr
  = (Returned
       (None, Some (Decorate (External "session is closed")
                      "Unable to call listen on SAM session" [])),
     [EvListen "inboundSession-7"]).
Proof.
  apply Listen_raw_failure. reflexivity.
Defined.

Lemma Listen_success_witness :
  Listen Scenario.wrapListener
    (Scenario.transport (Some Scenario.upgraderOk) Scenario.rawListener)
    Scenario.tcpAddr
  = (Returned
       (Some {| listener_inner :=
                  {| transportlistener_raw := Scenario.rawListener;
                     transportlistener_addr := Scenario.localAddr |} |},
        None),
     [EvListen "inboundSession-7";
      EvUpgradeListener
        {| transportlistener_raw := Scenario.rawListener;
           transportlistener_addr := Scenario.localAddr |}]).
Proof.
  apply (Listen_success Scenario.wrapListener
           (Scenario.transport (Some Scenario.upgraderOk) Scenario.rawListener)
           Scenario.tcpAddr Scenario.rawListener
           {| transportlistener_raw := Scenario.rawListener;
              transportlistener_addr := Scenario.localAddr |}
           Scenario.upgraderOk);
    vm_compute; reflexivity.
Defined.

Lemma Listen_without_upgrader_panics_witness :
  exists msg,
    Listen Scenario.wrapListener
      (Scenario.transport None Scenario.rawListener) Scenario.localAddr
    = (Panicked msg, [EvListen "inboundSession-7"]) /\
    count isListenerClose
      (trace (Listen Scenario.wrapListener
                (Scenario.transport None Scenario.rawListener)
                Scenario.localAddr)) = 0%nat.
Proof.
  apply (Listen_without_upgrader_panics Scenario.wrapListener
           (Scenario.transport None Scenario.rawListener) Scenario.localAddr
           Scenario.rawListener
           {| transportlistener_raw := Scenario.rawListener;
              transportlistener_addr := Scenario.localAddr |});
    vm_compute; reflexivity.
Defined.

Lemma Listen_with_upgrader_returns_witness :
  exists l e tr,
    Listen Scenario.wrapListener
      (Scenario.transport (Some Scenario.upgraderOk) Scenario.oddListener)
      Scenario.localAddr
    = (Returned (l, e), tr) /\
    (e = None -> l <> None /\ count isUpgradeListener tr = 1%nat) /\
    (e <> None -> l = None /\ count isUpgradeListener tr = 0%nat) /\
    count isDialI2P tr = 0%nat.
Proof.
  apply Listen_with_upgrader_returns. discriminate.
Defined.

Lemma builder_primary_failure_witness :
  I2PTransportBuilder Scenario.toMultiAddr ["inbound.length=3"]
    (fun seed => seed) Scenario.routerDown Scenario.keys "23459" 14
  = (Returned (None, None,
               Some (Decorate (External "SAM unreachable")
                       "Failed to create Primary session with I2P SAM" [])),
     [EvNewPrimarySession "primarySession-14" Scenario.keys
        ["inbound.length=3"]]).
Proof.
  apply (builder_primary_failure Scenario.toMultiAddr ["inbound.length=3"]
           (fun seed => seed) Scenario.routerDown Scenario.keys "23459" 14
           (External "SAM unreachable")).
  reflexivity.
Defined.

Lemma builder_inbound_failure_witness :
  I2PTransportBuilder Scenario.toMultiAddr ["inbound.length=3"]
    (fun seed => seed) (Scenario.routerWith Scenario.primaryNoInbound)
    Scenario.keys "23459" 14
  = (Returned (None, None,
               Some (Decorate (External "duplicated id")
                       "Failed to create inboundSession subsession with I2P SAM"
                       [])),
     [EvNewPrimarySession "primarySession-14" Scenario.keys
        ["inbound.length=3"];
      EvNewStreamSubSession "primarySession-7" "inboundSession-14"]).
Proof.
  apply (builder_inbound_failure Scenario.toMultiAddr ["inbound.length=3"]
           (fun seed => seed) (Scenario.routerWith Scenario.primaryNoInbound)
           Scenario.keys "23459" 14 Scenario.primaryNoInbound
           (External "duplicated id"));
    reflexivity.
Defined.

Lemma builder_outbound_failure_witness :
  I2PTransportBuilder Scenario.toMultiAddr ["inbound.length=3"]
    (fun seed => seed) (Scenario.routerWith Scenario.primaryNoOutbound)
    Scenario.keys "23459" 14
  = (Returned (None, None,
               Some (Decorate (External "duplicate protocol and port")
                       "Failed to create outbound subsession with I2P SAM" [])),
     [EvNewPrimarySession "primarySession-14" Scenario.keys
        ["inbound.length=3"];
      EvNewStreamSubSession "primarySession-7" "inboundSession-14";
      EvNewStreamSubSessionWithPorts "primarySession-7" "outboundSession-14"
        "1" "0"]).
Proof.
  apply (builder_outbound_failure Scenario.toMultiAddr ["inbound.length=3"]
           (fun seed => seed) (Scenario.routerWith Scenario.primaryNoOutbound)
           Scenario.keys "23459" 14 Scenario.primaryNoOutbound
           (Scenario.session "inboundSession-14" Scenario.rawListener)
           (External "duplicate protocol and port"));
    reflexivity.
Defined.

Lemma builder_address_failure_witness :
  I2PTransportBuilder Scenario.toMultiAddr ["inbound.length=3"]
    (fun seed => seed) (Scenario.routerWith Scenario.primaryOddAddr)
    Scenario.keys "23459" 14
  = (Returned (None, None, Some MalformedAddress),
     [EvNewPrimarySession "primarySession-14" Scenario.keys
        ["inbound.length=3"];
      EvNewStreamSubSession "primarySession-7" "inboundSession-14";
      EvNewStreamSubSessionWithPorts "primarySession-7" "outboundSession-14"
        "1" "0"]).
Proof.
  apply (builder_address_failure Scenario.toMultiAddr ["inbound.length=3"]
           (fun seed => seed) (Scenario.routerWith Scenario.primaryOddAddr)
           Scenario.keys "23459" 14 Scenario.primaryOddAddr
           (Scenario.session "inboundSession-14" Scenario.rawListener)
           (Scenario.session "outboundSession-14" Scenario.rawListener)
           MalformedAddress);
    reflexivity.
Defined.

Lemma builder_success_transport_witness :
  exists build tr,
    I2PTransportBuilder Scenario.toMultiAddr ["inbound.length=3"]
      (fun seed => seed) Scenario.router Scenario.keys "23459" 14
    = (Returned (Some build, Some Scenario.localAddr, None), tr) /\
    forall upgrader rcmgr, exists t,
      build upgrader rcmgr = (Some t, None) /\
      Upgrader t = upgrader /\ ResourceManager t = rcmgr /\
      sam t = Scenario.router /\ i2PKeys t = Scenario.keys.
Proof.
  do 2 eexists. split; [reflexivity|].
  destruct (builder_success_transport Scenario.toMultiAddr
              ["inbound.length=3"] (fun seed => seed) Scenario.router
              Scenario.keys "23459" 14 _ _ _ _ eq_refl)
    as (p & addr & _ & _ & _ & _ & Hb).
  intros upgrader rcmgr. destruct (Hb upgrader rcmgr) as (t & H1 & H2 & H3 & H4 & H5 & _).
  exists t. repeat split; assumption.
Defined.

Lemma builder_session_ids_differ_across_runs_witness :
  "primarySession-1" <> "primarySession-2".
Proof.
  apply (builder_session_ids_differ_across_runs Scenario.toMultiAddr
           ["inbound.length=3"] (fun seed => seed)
           Scenario.router Scenario.routerDown Scenario.keys Scenario.keys
           "0" "1" 1 2).
  - discriminate.
  - vm_compute. left. reflexivity.
  - vm_compute. left. reflexivity.
Defined.

Lemma Close_built_transport_witness :
  exists build tr,
    I2PTransportBuilder Scenario.toMultiAddr ["inbound.length=3"]
      (fun seed => seed) Scenario.router Scenario.keys "23459" 14
    = (Returned (Some build, Some Scenario.localAddr, None), tr) /\
    forall upgrader rcmgr, exists t,
      build upgrader rcmgr = (Some t, None) /\
      Close t = (Returned tt, [EvPrimaryClose "primarySession-7"]).
Proof.
  do 2 eexists. split; [reflexivity|].
  destruct (Close_built_transport Scenario.toMultiAddr
              ["inbound.length=3"] (fun seed => seed) Scenario.router
              Scenario.keys "23459" 14 _ _ _ _ eq_refl)
    as (p & Hp & Hb).
  cbn in Hp. inversion Hp; subst p. exact Hb.
Defined.

Lemma built_transport_uses_its_sessions_witness :
  exists build tr,
    I2PTransportBuilder Scenario.toMultiAddr ["inbound.length=3"]
      (fun seed => seed) Scenario.router Scenario.keys "23459" 14
    = (Returned (Some build, Some Scenario.localAddr, None), tr) /\
    forall upgrader rcmgr, exists t,
      build upgrader rcmgr = (Some t, None) /\
      (forall ctx remoteAddress peerID,
         Forall (dialsOnly "outboundSession-14")
           (trace (Dial Scenario.toMultiAddr Scenario.toI2PAddr
                     Scenario.wrapConn t ctx remoteAddress peerID))) /\
      (forall addr,
         Forall (listensOnly "inboundSession-14")
           (trace (Listen Scenario.wrapListener t addr))).
Proof.
  do 2 eexists. split; [reflexivity|].
  destruct (built_transport_uses_its_sessions Scenario.toMultiAddr
              Scenario.toI2PAddr Scenario.wrapConn Scenario.wrapListener
              ["inbound.length=3"] (fun seed => seed) Scenario.router
              Scenario.keys "23459" 14 _ _ _ _ eq_refl)
    as (p & i & o & Hp & Hi & Ho & Hb).
  cbn in Hp. inversion Hp; subst p.
  cbn in Hi. inversion Hi; subst i.
  cbn in Ho. inversion Ho; subst o.
  exact Hb.
Defined.
